(** * GOT-OCR 2.0 demo driver: prompt construction and output post-processing

    A shallow embedding of [GOT/demo/run_ocr_2.0.py] ([eval_model]).

    Conventions of the embedding.
    - Python [str] values are Stdlib [string]s; a character is an [ascii]
      code point.  The newline and the double quote are written [nl] and
      [dq]; a backslash is an ordinary character of a Rocq literal.
    - Python [int] values are [Z].  Python [float] values are binary64
      numbers, modelled by [spec_float] with the operations of
      [Floats.SpecFloat] at precision 53 and maximal exponent 1024.
    - A computation that can raise returns a [result]; code that writes
      files is a function on a store of files, a [gmap] from paths to
      contents, paired with a [result].  A directory that exists is a
      key of the store too (its content is not used); the working
      directory always exists.
    - [args.box] is a text handed to Python's [eval]; the record [Args]
      holds the evaluated value: [None] for the empty text (which is
      falsy, so the box block is skipped) and [Some l] for a text that
      evaluates to the list of integers [l].
    - Collaborators that live outside the file (the punctuation table, the
      conversation template, the model, the music toolkit) are section
      variables. *)

From Stdlib Require Import ZArith Ascii String List Lia.
From Stdlib Require Import Floats.SpecFloat Numbers.DecimalString.
From stdpp Require Import base gmap strings list.

Local Open Scope Z_scope.

(** ** Exceptions and results *)

Inductive exn : Type :=
| ZeroDivisionError
| OverflowError
| ValueError
| IndexError
| FileNotFoundError
| ToolkitError.

Inductive result (A : Type) : Type :=
| Ok (a : A)
| Raise (e : exn).
Arguments Ok {A} a.
Arguments Raise {A} e.

Definition rbind {A B : Type} (r : result A) (k : A -> result B) : result B :=
match r with
| Ok a => k a
| Raise e => Raise e
end.

(** [result] is used through stdpp's monad notation [x ← r; k]. *)
Global Instance result_ret : MRet result := fun A a => Ok a.
Global Instance result_bind : MBind result := fun A B k r => rbind r k.

Definition raises {A : Type} (r : result A) : Prop := exists e, r = Raise e.

(** ** Python string primitives *)

Module PyStr.

Definition nl : string := String (ascii_of_nat 10) EmptyString.
Definition dq : string := String (ascii_of_nat 34) EmptyString.
Definition space : ascii := ascii_of_nat 32.
Definition semicolon : ascii := ascii_of_nat 59.

Definition len (s : string) : nat := String.length s.

(** [s.startswith(p)] *)
Definition startswith (p s : string) : bool := String.prefix p s.

(** [sub in s], for a non-empty [sub]. *)
Fixpoint contains (sub s : string) : bool :=
  match s with
  | EmptyString => startswith sub EmptyString
  | String _ s' => startswith sub s || contains sub s'
  end.

(** [s.count(sub)] for a non-empty [sub]: occurrences are counted from
    the left and do not overlap; [skip] is the number of characters of
    the occurrence just counted that are still to be passed over. *)
Fixpoint count_from (sub : string) (skip : nat) (s : string) : nat :=
  match s with
  | EmptyString => O
  | String _ s' =>
      match skip with
      | S k => count_from sub k s'
      | O => if startswith sub s
             then S (count_from sub (len sub - 1) s')
             else count_from sub O s'
      end
  end.
Definition count (sub s : string) : nat := count_from sub O s.

(** [s.replace(old, new)] for a non-empty [old]. *)
Fixpoint replace_from (old new : string) (skip : nat) (s : string) : string :=
  match s with
  | EmptyString => EmptyString
  | String c s' =>
      match skip with
      | S k => replace_from old new k s'
      | O => if startswith old s
             then new +:+ replace_from old new (len old - 1) s'
             else String c (replace_from old new O s')
      end
  end.
Definition replace (old new s : string) : string := replace_from old new O s.

(** [s.split(sep)] for a non-empty [sep]: the pieces between the
    occurrences of [sep], found from the left; always at least one
    piece. *)
Definition cons_head (c : ascii) (l : list string) : list string :=
  match l with
  | [] => [String c EmptyString]
  | p :: ps => String c p :: ps
  end.

Fixpoint split_from (sep : string) (skip : nat) (s : string) : list string :=
  match s with
  | EmptyString => [EmptyString]
  | String c s' =>
      match skip with
      | S k => split_from sep k s'
      | O => if startswith sep s
             then EmptyString :: split_from sep (len sep - 1) s'
             else cons_head c (split_from sep O s')
      end
  end.
Definition split (sep s : string) : list string := split_from sep O s.

(** [sep.join(l)] *)
Fixpoint join (sep : string) (l : list string) : string :=
  match l with
  | [] => EmptyString
  | [p] => p
  | p :: ps => p +:+ sep +:+ join sep ps
  end.

(** [s[-1]]: the last character; indexing the empty string raises. *)
Fixpoint last_char (s : string) : result ascii :=
  match s with
  | EmptyString => Raise IndexError
  | String c EmptyString => Ok c
  | String _ s' => last_char s'
  end.

(** [s[:-1]]: all but the last character; the empty string stays empty. *)
Fixpoint drop_last (s : string) : string :=
  match s with
  | EmptyString => EmptyString
  | String _ EmptyString => EmptyString
  | String c s' => String c (drop_last s')
  end.

(** [s[:-k]]: for [k = 0] this is [s[:0]], the empty string. *)
Definition slice_to_neg (k : nat) (s : string) : string :=
  match k with
  | O => EmptyString
  | _ => String.substring 0 (len s - k) s
  end.

(** [s[k:]] *)
Fixpoint slice_from (k : nat) (s : string) : string :=
  match k, s with
  | S k', String _ s' => slice_from k' s'
  | _, _ => s
  end.

(** [s.endswith(suf)] *)
Definition endswith (suf s : string) : bool :=
  (len suf <=? len s)%nat
  && String.eqb (String.substring (len s - len suf) (len suf) s) suf.

(** [c.isspace()] on the code points below 256. *)
Definition isspace (c : ascii) : bool :=
  let n := nat_of_ascii c in
  ((9 <=? n) && (n <=? 13) || (28 <=? n) && (n <=? 32)
   || (n =? 133) || (n =? 160))%nat.

Fixpoint lstrip (s : string) : string :=
  match s with
  | EmptyString => EmptyString
  | String c s' => if isspace c then lstrip s' else s
  end.

(** [rstrip] keeps a character when it is not a space or when something
    is kept after it. *)
Fixpoint rstrip (s : string) : string :=
  match s with
  | EmptyString => EmptyString
  | String c s' =>
      match rstrip s' with
      | EmptyString => if isspace c then EmptyString else String c EmptyString
      | r => String c r
      end
  end.

(** [s.strip()] *)
Definition strip (s : string) : string := rstrip (lstrip s).

(** [s * n] *)
Fixpoint repeat (s : string) (n : nat) : string :=
  match n with
  | O => EmptyString
  | S k => s +:+ repeat s k
  end.

(** [s.translate(table)] where [table] maps a character to its
    replacement text; characters without an entry are kept. *)
Fixpoint translate (table : ascii -> option string) (s : string) : string :=
  match s with
  | EmptyString => EmptyString
  | String c s' =>
      match table c with
      | Some r => r +:+ translate table s'
      | None => String c (translate table s')
      end
  end.

(** The decimal text of [n]: what [str(n)] returns when it returns. *)
Definition str_int (n : Z) : string := NilZero.string_of_int (Z.to_int n).

(** The text of a list of [int]: what [str(l)] returns when it returns. *)
Definition str_list (l : list Z) : string :=
  "[" +:+ join ", " (map str_int l) +:+ "]".

(** The default of [sys.int_max_str_digits]: CPython refuses to convert
    an [int] of more decimal digits to text. *)
Definition int_max_str_digits : nat := 4300.

(** The number of decimal digits of [n], its sign left out. *)
Definition digits (n : Z) : nat := len (str_int (Z.abs n)).

Definition short_int (n : Z) : bool := (digits n <=? int_max_str_digits)%nat.

(** [str(n)] for an [int]: [ValueError] beyond the digit limit. *)
Definition str_of_int (n : Z) : result string :=
  if short_int n then Ok (str_int n) else Raise ValueError.

(** [str(l)] for a list of [int]: the elements are converted in order. *)
Fixpoint strs_of_ints (l : list Z) : result (list string) :=
  match l with
  | [] => Ok []
  | n :: rest => s ← str_of_int n; ss ← strs_of_ints rest; Ok (s :: ss)
  end.

Definition str_of_list (l : list Z) : result string :=
  ss ← strs_of_ints l; Ok ("[" +:+ join ", " ss +:+ "]").

End PyStr.


(** ** Python numbers: true division, float product, truncation *)

Module PyNum.

Definition prec : Z := 53.
Definition emax : Z := 1024.

(** An [int] read as an exact binary number with exponent 0.  The
    mantissa is not bounded: [SFdiv] shifts the dividend by the digit
    counts of both operands, so the quotient of two such numbers is
    rounded once, from the exact ratio. *)
Definition exact_of_int (n : Z) : spec_float :=
  match n with
  | Z0 => S754_zero false
  | Zpos p => S754_finite false p 0
  | Zneg p => S754_finite true p 0
  end.

(** [float(n)]: the binary64 number nearest to [n]. *)
Definition float_of_int (n : Z) : spec_float :=
  binary_normalize prec emax n 0 false.

(** [a / b] on two [int]s: the correctly rounded ratio;
    [ZeroDivisionError] for a zero divisor, [OverflowError] when the
    ratio is out of the range of a float. *)
Definition int_truediv (a b : Z) : result spec_float :=
  if b =? 0 then Raise ZeroDivisionError
  else match SFdiv prec emax (exact_of_int a) (exact_of_int b) with
       | S754_infinity _ => Raise OverflowError
       | q => Ok q
       end.

(** [x * n] for a float [x] and a small [int] [n]. *)
Definition float_mul_int (x : spec_float) (n : Z) : spec_float :=
  SFmul prec emax x (float_of_int n).

(** [int(x)]: truncation towards zero. *)
Definition int_of_float (x : spec_float) : result Z :=
  match x with
  | S754_nan => Raise ValueError
  | S754_infinity _ => Raise OverflowError
  | S754_zero _ => Ok 0
  | S754_finite s m e =>
      let a := match e with
               | Zneg p => Zpos m / 2 ^ Zpos p
               | _ => Zpos m * 2 ^ e
               end in
      Ok (if s then - a else a)
  end.

End PyNum.

(** ** Command-line arguments *)

Record Args : Type := {
model_name : string;
image_file : string;
type : string;
box : option (list Z);
color : string;
render : bool
}.

(** ** Coordinate normalisation and prompt construction (lines 66-101) *)

Module Prompt.
Import PyStr PyNum.

Definition DEFAULT_IMAGE_PATCH_TOKEN : string := "<imgpad>".
Definition DEFAULT_IM_START_TOKEN : string := "<img>".
Definition DEFAULT_IM_END_TOKEN : string := "</img>".
Definition image_token_len : nat := 256.

(** [int(x / d * 1000)] *)
Definition scale (x d : Z) : result Z :=
  q ← int_truediv x d;
  int_of_float (float_mul_int q 1000).

(** [bbox[i] = int(bbox[i] / d * 1000)] *)
Definition set_scaled (i : nat) (d : Z) (bbox : list Z) : result (list Z) :=
  match bbox !! i with
  | None => Raise IndexError
  | Some x => v ← scale x d; Ok (<[i := v]> bbox)
  end.

(** Lines 73-80: the two [if len(bbox) == ...] blocks, in order. *)
Definition bbox_norm (bbox : list Z) (w h : Z) : result (list Z) :=
  b ← (if (length bbox =? 2)%nat
       then b0 ← set_scaled 0 w bbox; set_scaled 1 h b0
       else Ok bbox);
  if (length b =? 4)%nat
  then b0 ← set_scaled 0 w b;
       b1 ← set_scaled 1 h b0;
       b2 ← set_scaled 2 w b1;
       set_scaled 3 h b2
  else Ok b.

(** Lines 66-69. *)
Definition qs_base (a : Args) : string :=
  if String.eqb (type a) "format" then "OCR with format: " else "OCR: ".

(** Lines 71-84: [qs] after the [if args.box:] block. *)
Definition qs_box (a : Args) (w h : Z) : result string :=
  match box a with
  | None => Ok (qs_base a)
  | Some bbox =>
      b ← bbox_norm bbox w h;
      text ← str_of_list b;
      Ok (text +:+ " " +:+ qs_base a)
  end.

(** Lines 86-90: the [if args.color:] block assigns [qs] anew. *)
Definition qs_color (a : Args) (qs : string) : string :=
  if String.eqb (color a) "" then qs
  else "[" +:+ color a +:+ "] " +:+ qs_base a.

(** The instruction: [qs] on reaching line 92. *)
Definition qs_instruction (a : Args) (w h : Z) : result string :=
  qs ← qs_box a w h; Ok (qs_color a qs).

(** Lines 92-99 ([use_im_start_end] is [True]). *)
Definition image_block : string :=
  DEFAULT_IM_START_TOKEN
  +:+ PyStr.repeat DEFAULT_IMAGE_PATCH_TOKEN image_token_len
  +:+ DEFAULT_IM_END_TOKEN +:+ nl.

Definition qs_final (a : Args) (w h : Z) : result string :=
  qs ← qs_instruction a w h; Ok (image_block +:+ qs).

End Prompt.


(** ** Decoding of the generated text (lines 134-137) *)

Module Decode.
Import PyStr.

(** [outputs] on reaching line 139, from the decoded new tokens. *)
Definition outputs_text (stop_str decoded : string) : string :=
  let outputs := strip decoded in
  let outputs :=
    if endswith stop_str outputs
    then slice_to_neg (len stop_str) outputs
    else outputs in
  strip outputs.

End Decode.

(** ** The two HTML renderers (lines 167-227), as functions on texts *)

Module Render.
Import PyStr.

Definition marker : string := "const text =".
Definition begin_tikz : string := "\begin{tikzpicture}".
Definition end_tikz : string := "\end{tikzpicture}".

(** Lines 171-179: the delimiter repair, guarded by the two counts. *)
Definition balance_repair (outputs : string) : string :=
  let right_num := count "\right" outputs in
  let left_num := count "\left" outputs in
  if negb (right_num =? left_num)%nat then
    let outputs := replace "\right)" ")" (replace "\left(" "(" outputs) in
    let outputs := replace "\right]" "]" (replace "\left[" "[" outputs) in
    let outputs := replace "\right}" "}" (replace "\left{" "{" outputs) in
    let outputs := replace "\right|" "|" (replace "\left|" "|" outputs) in
    replace "\right." "." (replace "\left." "." outputs)
  else outputs.

(** Line 181. *)
Definition unquote (outputs : string) : string :=
  replace "$" "" (replace dq "``" outputs).

(** Lines 184-187: one quoted JavaScript literal per line, joined by
    [+]; the final [gt[:-2]] removes the last [+] and newline. *)
Fixpoint gt_mmd_loop (gt : string) (outputs_list : list string) : string :=
  match outputs_list with
  | [] => gt
  | out :: rest =>
      gt_mmd_loop
        (gt +:+ dq +:+ replace "\" "\\" out +:+ "\n" +:+ dq +:+ "+" +:+ nl)
        rest
  end.

Definition gt_mmd (outputs : string) : string :=
  slice_to_neg 2 (gt_mmd_loop "" (split nl outputs)).

(** [lines[i]] for a list of pieces. *)
Definition piece (lines : list string) (i : nat) : result string :=
  match lines !! i with
  | Some p => Ok p
  | None => Raise IndexError
  end.

(** Lines 191-192: the structured-markup page. *)
Definition new_web_mmd (template gt : string) : result string :=
  let lines := split marker template in
  l0 ← piece lines 0;
  l1 ← piece lines 1;
  Ok (l0 +:+ marker +:+ gt +:+ l1).

(** Lines 209-212: [while out[-1] == " ": out = out[:-1]].  The loop only
    looks at the end of [out], so it runs on the characters of [out] from
    the last one: [r] holds [out] backwards, its head is [out[-1]] and its
    tail is [out[:-1]].  The test of the empty text is the [IndexError] of
    [out[-1]]; [out is None] never holds for a text, so the [break] is
    never taken. *)
Fixpoint while_space (r : list ascii) : result (list ascii) :=
  match r with
  | [] => Raise IndexError
  | c :: r' => if Ascii.eqb c space then while_space r' else Ok r
  end.

Definition strip_trailing (out : string) : result string :=
  r ← while_space (rev (list_ascii_of_string out));
  Ok (string_of_list_ascii (rev r)).

(** Lines 204-219: what one line of the text adds to [gt]. *)
Definition tikz_line (out : string) : result string :=
  if String.eqb out "" then Ok ""
  else if negb (contains begin_tikz out) && negb (contains end_tikz out) then
    out ← strip_trailing out;
    if String.eqb out "" then Ok ""
    else
      c ← last_char out;
      if negb (Ascii.eqb c semicolon)
      then Ok (drop_last out +:+ ";" +:+ nl)
      else Ok (out +:+ nl)
  else Ok (out +:+ nl).

Fixpoint gt_tikz_loop (gt : string) (outputs_list : list string) : result string :=
  match outputs_list with
  | [] => Ok gt
  | out :: rest => added ← tikz_line out; gt_tikz_loop (gt +:+ added) rest
  end.

(** Lines 200-219. *)
Definition gt_tikz (punctuation_dict : ascii -> option string)
    (outputs : string) : result string :=
  gt_tikz_loop "" (split nl (translate punctuation_dict outputs)).

(** Lines 223-224: the diagram page. *)
Definition new_web_tikz (template gt : string) : result string :=
  let lines := split marker template in
  l0 ← piece lines 0;
  l1 ← piece lines 1;
  Ok (l0 +:+ gt +:+ l1).

End Render.

(** ** The whole run, on a store of files *)

Module Run.
Import PyStr Prompt Decode Render.

Abbreviation store := (gmap string string).

Definition ocr_output : string := "ocr_output.txt".
Definition demo_html : string := "./results/demo.html".
Definition mmd_template : string := "./render_tools/" +:+ "/content-mmd-to-html.html".
Definition tikz_template : string := "./render_tools/" +:+ "/tikz.html".

Definition results_dir : string := "./results/".

(** [open(path, "w")] then [write], for a path in the working directory:
    the file is replaced. *)
Definition write_file (path content : string) (fs : store) : store :=
  <[path := content]> fs.

(** [open(path, "w")] then [write], for a path inside the directory
    [dir]: [open] raises [FileNotFoundError] when the directory does not
    exist, and nothing is written. *)
Definition write_in (dir path content : string) (fs : store)
    : store * result unit :=
  match fs !! dir with
  | Some _ => (write_file path content fs, Ok ())
  | None => (fs, Raise FileNotFoundError)
  end.

(** [open(path, "r")] then [read]. *)
Definition read_file (path : string) (fs : store) : result string :=
  match fs !! path with
  | Some content => Ok content
  | None => Raise FileNotFoundError
  end.

Section Collaborators.

(** [punctuation_dict] of [GOT.demo.process_results]. *)
Variable punctuation_dict : ascii -> option string.
(** The conversation template: the prompt for an instruction, and the
    stop text. *)
Variable get_prompt : string -> string.
Variable stop_str : string.
(** The model on the loaded image: the decoded new tokens for a prompt. *)
Variable generate : string -> string.
(** The music toolkit: the SVG of a score. *)
Variable verovio_svg : string -> result string.
(** [svg_to_html] of [GOT.demo.process_results], which is given a path
    and works on the files. *)
Variable svg_to_html : string -> string -> store -> store * result unit.

(** Lines 144-165. *)
Definition render_kern (outputs : string) (fs : store) : store * result unit :=
  match verovio_svg outputs with
  | Raise e => (fs, Raise e)
  | Ok svg =>
      let svg := replace ("overflow=" +:+ dq +:+ "inherit" +:+ dq)
                         ("overflow=" +:+ dq +:+ "visible" +:+ dq) svg in
      svg_to_html svg demo_html fs
  end.

(** Lines 168-195. *)
Definition render_mmd (outputs : string) (fs : store) : store * result unit :=
  let outputs := unquote (balance_repair outputs) in
  let gt := gt_mmd outputs in
  match (template ← read_file mmd_template fs; new_web_mmd template gt) with
  | Raise e => (fs, Raise e)
  | Ok new_web => write_in results_dir demo_html new_web fs
  end.

(** Lines 197-227. *)
Definition render_tikz (outputs : string) (fs : store) : store * result unit :=
  match (gt ← gt_tikz punctuation_dict outputs;
         template ← read_file tikz_template fs;
         new_web_tikz template gt) with
  | Raise e => (fs, Raise e)
  | Ok new_web => write_in results_dir demo_html new_web fs
  end.

(** Lines 142-227: the [if args.render:] block. *)
Definition render_branch (a : Args) (outputs : string) (fs : store)
    : store * result unit :=
  let kern := contains "**kern" outputs in
  let '(fs, r) := if kern then render_kern outputs fs else (fs, Ok ()) in
  match r with
  | Raise e => (fs, Raise e)
  | Ok _ =>
      if String.eqb (type a) "format" && negb kern then
        if negb (contains begin_tikz outputs)
        then render_mmd outputs fs
        else render_tikz outputs fs
      else (fs, Ok ())
  end.

(** Lines 139-227, from the trimmed text on. *)
Definition save_and_render (a : Args) (outputs : string) (fs : store)
    : store * result unit :=
  let fs := write_file ocr_output outputs fs in
  if render a then render_branch a outputs fs else (fs, Ok ()).

(** [eval_model] for an image of size [w] by [h]. *)
Definition eval_model (a : Args) (w h : Z) (fs : store) : store * result unit :=
  match qs_final a w h with
  | Raise e => (fs, Raise e)
  | Ok qs =>
      let outputs := outputs_text stop_str (generate (get_prompt qs)) in
      save_and_render a outputs fs
  end.

End Collaborators.

End Run.

(** ** Loading the image (lines 34-41) *)

Module Load.
Import PyStr.

Section LoadImage.

(** The decoded picture, and the three library calls: [requests.get]
    with the [content] of the response, [Image.open] on the bytes
    received and [Image.open] on a path, both followed by
    [convert("RGB")]. *)
Variable Image : Type.
Variable requests_get : string -> result string.
Variable open_bytes : string -> result Image.
Variable open_file : string -> result Image.

Definition load_image (image_file : string) : result Image :=
  if startswith "http" image_file || startswith "https" image_file
  then content ← requests_get image_file; open_bytes content
  else open_file image_file.

End LoadImage.

End Load.

(** ** Shapes of texts, used to state what the loops produce *)

Module Shape.
Import PyStr.

(** The JavaScript literal of one line (line 186, without the [+] and the
    newline that follow it). *)
Definition js_line (out : string) : string :=
  dq +:+ replace "\" "\\" out +:+ "\n" +:+ dq.

(** A text made of space characters only. *)
Fixpoint all_spaces (s : string) : bool :=
  match s with
  | EmptyString => true
  | String c s' => Ascii.eqb c space && all_spaces s'
  end.

(** A line that is not empty and holds nothing but spaces. *)
Definition blank (out : string) : bool :=
  negb (String.eqb out "") && all_spaces out.

(** The character [c] occurs in [s]. *)
Fixpoint has_char (c : ascii) (s : string) : bool :=
  match s with
  | EmptyString => false
  | String a s' => Ascii.eqb c a || has_char c s'
  end.

(** A text that neither starts nor ends with a whitespace character. *)
Definition trimmed (s : string) : Prop :=
  (forall c s', s = String c s' -> isspace c = false)
  /\ (forall c, last_char s = Ok c -> isspace c = false).

(** The ten delimiter forms that lines 175-179 rewrite. *)
Definition repaired_forms : list string :=
  ["\left("; "\right)"; "\left["; "\right]"; "\left{"; "\right}";
   "\left|"; "\right|"; "\left."; "\right."].

End Shape.

(** ** Bounds on rounded values, used to state the range of the
    normaliser *)

Module Bound.

(** [loc_up l] is 1 when the location [l] says that the exact value lies
    strictly above the truncated mantissa. *)
Definition loc_up (l : location) : Z :=
  match l with loc_Exact => 0 | loc_Inexact _ => 1 end.

Definition rec_up (mrs : shr_record) : Z :=
  if shr_r mrs || shr_s mrs then 1 else 0.

(** The mantissa of [mrs] is not negative and the value it stands for is
    at most [N] units. *)
Definition below (N : Z) (mrs : shr_record) : Prop :=
  0 <= shr_m mrs /\ shr_m mrs + rec_up mrs <= N.

(** A float that is zero, or positive and at most [N]. *)
Definition at_most (N : Z) (x : spec_float) : Prop :=
  match x with
  | S754_zero _ => True
  | S754_finite false m e => e <= 0 /\ Zpos m <= N * 2 ^ (- e)
  | _ => False
  end.

End Bound.

(** ** Inputs of the examples *)

Module Examples.
Import PyStr Render Run.

(** The scenario of the specification: a box on an image of 1000 by
    1000, with the type [format]. *)
Definition scenario_args (m i c : string) (r : bool) : Args :=
  {| model_name := m; image_file := i; type := "format";
     box := Some [100; 100; 200; 200]; color := c; render := r |}.

(** A box and a colour together. *)
Definition both_args : Args :=
  {| model_name := ""; image_file := "page.png"; type := "format";
     box := Some [100; 100; 200; 200]; color := "red"; render := false |}.

(** A box of three coordinates. *)
Definition three_args (c : string) : Args :=
  {| model_name := ""; image_file := "page.png"; type := "ocr";
     box := Some [1; 2; 3]; color := c; render := false |}.

(** A run on an empty store of files, with a model that answers a diagram
    holding a line of spaces. *)
Definition demo_dict : ascii -> option string := fun _ => None.
Definition demo_prompt : string -> string := fun qs => "<|im_start|>user" +:+ nl +:+ qs.
Definition demo_stop : string := "<|im_end|>".
Definition demo_text : string :=
  begin_tikz +:+ nl +:+ "  " +:+ nl +:+ end_tikz.
Definition demo_generate : string -> string := fun _ => demo_text +:+ demo_stop.
Definition demo_verovio : string -> result string := fun _ => Raise ToolkitError.
Definition demo_svg_to_html : string -> string -> store -> store * result unit :=
  fun svg path fs => (<[path := svg]> fs, Ok ()).
Definition demo_args : Args :=
  {| model_name := "GOT_weights"; image_file := "page.png"; type := "format";
     box := None; color := ""; render := true |}.
Definition demo_run : store * result unit :=
  eval_model demo_dict demo_prompt demo_stop demo_generate demo_verovio
    demo_svg_to_html demo_args 640 480 ∅.

End Examples.

(** ** Inputs of the examples of runs *)

Module Runs.
Import PyStr Prompt Decode Render Run Examples.

Definition plain_args : Args :=
  {| model_name := "GOT_weights"; image_file := "page.png"; type := "ocr";
     box := None; color := ""; render := true |}.
Definition zero_args : Args :=
  {| model_name := "GOT_weights"; image_file := "page.png"; type := "ocr";
     box := Some [10; 20]; color := "red"; render := true |}.

Definition huge_args (n : Z) : Args :=
  {| model_name := "GOT_weights"; image_file := "page.png"; type := "ocr";
     box := Some [n; 2; 3]; color := ""; render := false |}.

(** A model that answers the same text for every prompt, followed by the
    stop text. *)
Definition answer (text : string) : string -> string :=
  fun _ => text +:+ demo_stop.
Definition formula_text : string := "$a \left( b$".
Definition kern_text : string := "**kern" +:+ nl +:+ "4c".
Definition demo_svg : string := "<svg overflow=" +:+ dq +:+ "inherit" +:+ dq +:+ ">".
Definition svg_toolkit : string -> result string := fun _ => Ok demo_svg.

Definition format_qs : string := image_block +:+ "OCR with format: ".
Definition plain_qs : string := image_block +:+ "OCR: ".

Definition mmd_files : store := {[ mmd_template := "<script>const text =</script>" ]}.


(** The run of [eval_model] for a model answering [text]. *)
Definition run_on (text : string) (a : Args) (w h : Z) (fs : store)
    : store * result unit :=
  eval_model demo_dict demo_prompt demo_stop (answer text) svg_toolkit
    demo_svg_to_html a w h fs.

End Runs.

(** * Properties *)

Import PyStr PyNum Prompt Decode Render Run Load Shape Bound Examples Runs.

(** ** The prompt *)

Lemma bbox_norm_other_length (b : list Z) (w h : Z) :
  length b ≠ 2%nat -> length b ≠ 4%nat -> bbox_norm b w h = Ok b.
Proof.
  intros H2 H4. unfold bbox_norm.
  destruct (Nat.eqb_spec (length b) 2) as [E|_]; [contradiction|].
  cbn. destruct (Nat.eqb_spec (length b) 4) as [E|_]; [contradiction|].
  reflexivity.
Qed.

Lemma qs_color_supplied (a : Args) (qs : string) :
  color a ≠ "" -> qs_color a qs = "[" +:+ color a +:+ "] " +:+ qs_base a.
Proof.
  intros Hc. unfold qs_color.
  destruct (String.eqb_spec (color a) "") as [E|_]; [contradiction|reflexivity].
Qed.

Lemma qs_color_absent (a : Args) (qs : string) :
  color a = "" -> qs_color a qs = qs.
Proof. intros Hc. unfold qs_color. rewrite Hc. reflexivity. Qed.

(** C9. The box [100, 100, 200, 200] on an image of 1000 by 1000 is
    normalised to [100, 100, 200, 200]; with the type [format] the
    instruction after the box block is
    ["[100, 100, 200, 200] OCR with format: "], whatever the other
    arguments, and with no colour this is the instruction placed after the
    image block in the prompt. *)
Theorem scenario_box_format (m i c : string) (r : bool) :
  bbox_norm [100; 100; 200; 200] 1000 1000 = Ok [100; 100; 200; 200]
  /\ qs_box (scenario_args m i c r) 1000 1000
     = Ok "[100, 100, 200, 200] OCR with format: "
  /\ qs_instruction (scenario_args m i "" r) 1000 1000
     = Ok "[100, 100, 200, 200] OCR with format: "
  /\ qs_final (scenario_args m i "" r) 1000 1000
     = Ok (image_block +:+ "[100, 100, 200, 200] OCR with format: ").
Proof.
  assert (Hn : bbox_norm [100; 100; 200; 200] 1000 1000
               = Ok [100; 100; 200; 200]) by (vm_compute; reflexivity).
  assert (Hb : qs_box (scenario_args m i c r) 1000 1000
               = Ok "[100, 100, 200, 200] OCR with format: ").
  { unfold qs_box, scenario_args; cbn [box]. rewrite Hn. reflexivity. }
  assert (Hi : qs_instruction (scenario_args m i "" r) 1000 1000
               = Ok "[100, 100, 200, 200] OCR with format: ").
  { unfold qs_instruction, qs_box, scenario_args; cbn [box]. rewrite Hn.
    reflexivity. }
  split; [exact Hn|]. split; [exact Hb|]. split; [exact Hi|].
  unfold qs_final. rewrite Hi. reflexivity.
Qed.

(** C1, as the code has it.  When a box and a colour are both supplied
    and the box block does not raise, exactly one prefix reaches the
    prompt and it is the colour prefix ["[" + color + "] "]: the
    instruction is that prefix followed by the base instruction, and the
    box text is dropped. *)
Theorem color_prefix_wins (a : Args) (w h : Z) (b : list Z) (qs : string) :
  box a = Some b ->
  color a ≠ "" ->
  qs_box a w h = Ok qs ->
  qs_instruction a w h = Ok ("[" +:+ color a +:+ "] " +:+ qs_base a).
Proof.
  intros _ Hc Hq. unfold qs_instruction. rewrite Hq. cbn.
  rewrite (qs_color_supplied a qs Hc). reflexivity.
Qed.

Lemma color_prefix_wins_witness :
  qs_instruction both_args 1000 1000 = Ok ("[" +:+ "red" +:+ "] " +:+ "OCR with format: ").
Proof.
  apply (color_prefix_wins both_args 1000 1000 [100; 100; 200; 200]
           "[100, 100, 200, 200] OCR with format: ").
  - reflexivity.
  - discriminate.
  - vm_compute. reflexivity.
Defined.

(** C1 fails as stated: with box [100, 100, 200, 200] and colour [red]
    the box is normalised, yet the instruction carries the colour prefix
    and not the box prefix. *)
Lemma box_prefix_counterexample :
  bbox_norm [100; 100; 200; 200] 1000 1000 = Ok [100; 100; 200; 200]
  /\ qs_instruction both_args 1000 1000 = Ok "[red] OCR with format: "
  /\ startswith (str_list [100; 100; 200; 200] +:+ " ")
       "[red] OCR with format: " = false
  /\ contains ("[" +:+ color both_args +:+ "] ") "[red] OCR with format: " = true.
Proof. vm_compute. auto. Qed.

Lemma strs_of_ints_short (l : list Z) :
  forallb short_int l = true -> strs_of_ints l = Ok (map str_int l).
Proof.
  induction l as [|n l IH]; [reflexivity|].
  cbn [forallb strs_of_ints map]. intros H.
  apply andb_true_iff in H as [Hn Hl].
  unfold str_of_int. rewrite Hn, (IH Hl). reflexivity.
Qed.

Lemma strs_of_ints_long (l : list Z) :
  forallb short_int l = false -> strs_of_ints l = Raise ValueError.
Proof.
  induction l as [|n l IH]; [discriminate|].
  cbn [forallb strs_of_ints]. unfold str_of_int.
  destruct (short_int n); [|reflexivity].
  cbn [andb]. intros Hl. rewrite (IH Hl). reflexivity.
Qed.

(** [str(l)] returns the text of the list when every element is within
    the digit limit, and raises [ValueError] otherwise. *)
Lemma str_of_list_cases (l : list Z) :
  str_of_list l
  = if forallb short_int l then Ok (str_list l) else Raise ValueError.
Proof.
  unfold str_of_list.
  destruct (forallb short_int l) eqn:E.
  - rewrite (strs_of_ints_short l E). reflexivity.
  - rewrite (strs_of_ints_long l E). reflexivity.
Qed.

(** C10, as the code has it.  A box whose length is neither 2 nor 4 is
    not normalised and the normaliser raises nothing, for any image size.
    When every coordinate has at most 4300 decimal digits, the box block
    raises nothing and prefixes the instruction with the text of that
    list and a space, and this is the instruction of the prompt when no
    colour is supplied; a coordinate of more digits makes [str(bbox)]
    raise [ValueError]. *)
Theorem odd_box_passes_through (a : Args) (w h : Z) (b : list Z) :
  box a = Some b ->
  length b ≠ 2%nat ->
  length b ≠ 4%nat ->
  bbox_norm b w h = Ok b
  /\ qs_box a w h
     = (if forallb short_int b
        then Ok (str_list b +:+ " " +:+ qs_base a)
        else Raise ValueError)
  /\ (forallb short_int b = true -> color a = "" ->
      qs_instruction a w h = Ok (str_list b +:+ " " +:+ qs_base a)).
Proof.
  intros Hb H2 H4.
  pose proof (bbox_norm_other_length b w h H2 H4) as Hn.
  assert (Hq : qs_box a w h
               = (if forallb short_int b
                  then Ok (str_list b +:+ " " +:+ qs_base a)
                  else Raise ValueError)).
  { unfold qs_box. rewrite Hb, Hn.
    change (Ok b ≫= ?k) with (k b). cbv beta.
    rewrite str_of_list_cases. destruct (forallb short_int b); reflexivity. }
  split; [exact Hn|]. split; [exact Hq|].
  intros Hs Hc. unfold qs_instruction. rewrite Hq, Hs.
  change (Ok ?q ≫= ?k) with (k q). cbv beta.
  rewrite (qs_color_absent a _ Hc). reflexivity.
Qed.

Lemma odd_box_passes_through_witness :
  bbox_norm [1; 2; 3] 0 0 = Ok [1; 2; 3]
  /\ qs_box (three_args "") 0 0
     = (if forallb short_int [1; 2; 3]
        then Ok (str_list [1; 2; 3] +:+ " " +:+ qs_base (three_args ""))
        else Raise ValueError)
  /\ (forallb short_int [1; 2; 3] = true -> color (three_args "") = "" ->
      qs_instruction (three_args "") 0 0
      = Ok (str_list [1; 2; 3] +:+ " " +:+ qs_base (three_args ""))).
Proof.
  apply (odd_box_passes_through (three_args "") 0 0 [1; 2; 3]).
  - reflexivity.
  - cbn. lia.
  - cbn. lia.
Defined.

(** The same box with a first coordinate of 4301 digits: the box block
    raises [ValueError], while 4300 digits are accepted. *)
Lemma odd_box_value_error :
  qs_box (huge_args (10 ^ 4300)) 640 480 = Raise ValueError
  /\ forallb short_int [10 ^ 4300 - 1; 2; 3] = true
  /\ forallb short_int [- (10 ^ 4300); 2; 3] = false.
Proof. vm_compute. auto. Qed.

(** C10 fails as stated: with the three-element box [1, 2, 3] and the
    colour [red], the instruction is not prefixed with the text of the
    list. *)
Lemma odd_box_counterexample :
  qs_instruction (three_args "red") 640 480 = Ok "[red] OCR: "
  /\ startswith (str_list [1; 2; 3] +:+ " ") "[red] OCR: " = false.
Proof. vm_compute. auto. Qed.

(** ** The coordinate normaliser: errors *)

Lemma scale_by_zero (x : Z) : scale x 0 = Raise ZeroDivisionError.
Proof. reflexivity. Qed.

Lemma set_scaled_at (i : nat) (d x : Z) (b : list Z) :
  b !! i = Some x ->
  set_scaled i d b = (v ← scale x d; Ok (<[i := v]> b)).
Proof. intros H. unfold set_scaled. rewrite H. reflexivity. Qed.

Lemma set_scaled_ok (i : nat) (d x v : Z) (b : list Z) :
  b !! i = Some x -> scale x d = Ok v ->
  set_scaled i d b = Ok (<[i := v]> b).
Proof. intros H Hs. rewrite (set_scaled_at i d x b H), Hs. reflexivity. Qed.

Lemma bind_ok {A B : Type} (a : A) (k : A -> result B) : (Ok a ≫= k) = k a.
Proof. reflexivity. Qed.

(** One assignment [bbox[i] = ...] whose scaling is known to succeed. *)
Ltac step_scaled E :=
  match type of E with
  | scale ?x ?d = Ok ?v =>
      match goal with
      | |- context [set_scaled ?i d ?b] =>
          rewrite (set_scaled_ok i d x v b eq_refl E), ?bind_ok
      end
  end.

Lemma length_2_or_4 (b : list Z) :
  length b = 2%nat \/ length b = 4%nat ->
  (exists x0 x1, b = [x0; x1]) \/ (exists x0 x1 x2 x3, b = [x0; x1; x2; x3]).
Proof.
  intros [H|H].
  - left. destruct b as [|x0 [|x1 [|? ?]]]; try discriminate. eauto.
  - right. destruct b as [|x0 [|x1 [|x2 [|x3 [|? ?]]]]]; try discriminate.
    eauto 6.
Qed.

(** C4, as the code has it.  The normaliser has no input check of its
    own.  A box whose length is neither 2 nor 4 raises nothing and is
    returned as it is, also for an image with a zero side.  A box of
    length 2 or 4 on an image of zero width raises [ZeroDivisionError],
    and so does one on an image of zero height once its first coordinate
    has been scaled. *)
Theorem normalizer_error_contract (b : list Z) (w h : Z) :
  (length b ≠ 2%nat -> length b ≠ 4%nat -> bbox_norm b w h = Ok b)
  /\ (length b = 2%nat \/ length b = 4%nat -> w = 0 ->
      bbox_norm b w h = Raise ZeroDivisionError)
  /\ (length b = 2%nat \/ length b = 4%nat -> h = 0 ->
      forall x0 v, b !! 0%nat = Some x0 -> scale x0 w = Ok v ->
      bbox_norm b w h = Raise ZeroDivisionError).
Proof.
  split; [apply bbox_norm_other_length|]. split.
  - intros Hl ->.
    destruct (length_2_or_4 b Hl) as [(x0 & x1 & ->)|(x0 & x1 & x2 & x3 & ->)];
      reflexivity.
  - intros Hl -> x0 v H0 Hs.
    destruct (length_2_or_4 b Hl) as [(y0 & x1 & ->)|(y0 & x1 & x2 & x3 & ->)];
      injection H0 as ->; unfold bbox_norm.
    + change (length [x0; x1] =? 2)%nat with true. cbv iota.
      rewrite (set_scaled_at 0 w x0 [x0; x1] eq_refl), Hs.
      reflexivity.
    + change (length [x0; x1; x2; x3] =? 2)%nat with false. cbv iota.
      change (Ok [x0; x1; x2; x3] ≫= _) with
        (b0 ← set_scaled 0 w [x0; x1; x2; x3];
         b1 ← set_scaled 1 0 b0; b2 ← set_scaled 2 w b1; set_scaled 3 0 b2).
      rewrite (set_scaled_at 0 w x0 [x0; x1; x2; x3] eq_refl), Hs.
      reflexivity.
Qed.

Lemma normalizer_error_contract_witness :
  bbox_norm [1; 2; 3] 0 0 = Ok [1; 2; 3]
  /\ bbox_norm [10; 20] 0 480 = Raise ZeroDivisionError
  /\ bbox_norm [10; 20; 30; 40] 640 0 = Raise ZeroDivisionError.
Proof.
  split; [|split].
  - apply (normalizer_error_contract [1; 2; 3] 0 0); cbn; lia.
  - apply (normalizer_error_contract [10; 20] 0 480); [left|]; reflexivity.
  - apply (normalizer_error_contract [10; 20; 30; 40] 640 0)
      with (x0 := 10) (v := 15); [right| | |]; reflexivity.
Defined.

(** C4 fails as stated: a three-element box is accepted without any
    error, even on an image with zero sides, and a zero width makes a
    two-element box raise [ZeroDivisionError]. *)
Lemma normalizer_error_counterexample :
  bbox_norm [1; 2; 3] 640 480 = Ok [1; 2; 3]
  /\ bbox_norm [1; 2; 3] 0 0 = Ok [1; 2; 3]
  /\ ~ raises (bbox_norm [1; 2; 3] 640 480)
  /\ bbox_norm [1; 2] 0 480 = Raise ZeroDivisionError.
Proof.
  split; [reflexivity|]. split; [reflexivity|]. split; [|reflexivity].
  intros [e He]. discriminate He.
Qed.

(** ** The delimiter repair *)

(** C7. A text with as many [\left] as [\right] is left unchanged by the
    repair; [A\left(x\right)] is such a text; in [A\left(x] the counts are
    1 and 0 and the repair turns [\left(] into [(]. *)
Theorem balance_repair_balanced (text : string) :
  count "\left" text = count "\right" text ->
  balance_repair text = text
  /\ balance_repair "A\left(x\right)" = "A\left(x\right)"
  /\ count "\left" "A\left(x" = 1%nat
  /\ count "\right" "A\left(x" = 0%nat
  /\ balance_repair "A\left(x" = "A(x".
Proof.
  intros H. split; [|vm_compute; auto].
  unfold balance_repair. rewrite H, Nat.eqb_refl. reflexivity.
Qed.

Lemma balance_repair_balanced_witness :
  balance_repair "\left[a\right] \left(b\right)" = "\left[a\right] \left(b\right)".
Proof.
  apply (balance_repair_balanced "\left[a\right] \left(b\right)").
  vm_compute. reflexivity.
Defined.

(** ** The diagram renderer: one line *)

Lemma app_cons (c : ascii) (s t : string) :
  String c s +:+ t = String c (s +:+ t).
Proof. reflexivity. Qed.

Lemma app_empty_l (s : string) : "" +:+ s = s.
Proof. reflexivity. Qed.

Lemma app_empty_r (s : string) : s +:+ "" = s.
Proof.
  induction s as [|c s IH]; [reflexivity|]. rewrite app_cons, IH. reflexivity.
Qed.

Lemma app_assoc_str (s t u : string) : (s +:+ t) +:+ u = s +:+ (t +:+ u).
Proof.
  induction s as [|c s IH]; [reflexivity|]. rewrite !app_cons, IH. reflexivity.
Qed.

Lemma chars_app (s t : string) :
  list_ascii_of_string (s +:+ t)
  = list_ascii_of_string s ++ list_ascii_of_string t.
Proof.
  induction s as [|c s IH]; [reflexivity|].
  rewrite app_cons. cbn. rewrite IH. reflexivity.
Qed.

Lemma chars_spaces (n : nat) :
  list_ascii_of_string (PyStr.repeat " " n) = replicate n space.
Proof.
  induction n as [|n IH]; [reflexivity|].
  cbn [PyStr.repeat]. rewrite chars_app, IH. reflexivity.
Qed.

Lemma rev_replicate {A : Type} (n : nat) (x : A) :
  rev (replicate n x) = replicate n x.
Proof.
  induction n as [|n IH]; [reflexivity|].
  cbn. rewrite IH. symmetry. apply (replicate_cons_app n x).
Qed.

Lemma while_space_spaces (n : nat) (r : list ascii) :
  while_space (replicate n space ++ r) = while_space r.
Proof. induction n as [|n IH]; [reflexivity|]. cbn. exact IH. Qed.

Lemma while_space_stop (c : ascii) (r : list ascii) :
  c ≠ space -> while_space (c :: r) = Ok (c :: r).
Proof.
  intros H. cbn [while_space].
  destruct (Ascii.eqb_spec c space) as [E|_]; [contradiction|reflexivity].
Qed.

(** A non-empty text is its [s[:-1]] followed by its [s[-1]]. *)
Lemma last_char_drop_last (s : string) :
  s ≠ "" ->
  exists c, last_char s = Ok c /\ s = drop_last s +:+ String c "".
Proof.
  induction s as [|a s IH]; [congruence|]. intros _.
  destruct s as [|b s'].
  - exists a. split; reflexivity.
  - destruct IH as (c & Hc & Hs); [discriminate|].
    exists c. split; [exact Hc|].
    change (drop_last (String a (String b s')))
      with (String a (drop_last (String b s'))).
    rewrite app_cons, <- Hs. reflexivity.
Qed.

(** The loop on a text that does not end in a space, followed by [n]
    spaces: the spaces are removed and the loop stops. *)
Lemma strip_trailing_content (c : string) (n : nat) :
  c ≠ "" -> last_char c ≠ Ok space ->
  strip_trailing (c +:+ PyStr.repeat " " n) = Ok c.
Proof.
  intros Hne Hlast.
  destruct (last_char_drop_last c Hne) as (a & Ha & Hc).
  assert (a ≠ space) by congruence.
  unfold strip_trailing.
  rewrite chars_app, chars_spaces, rev_app_distr, rev_replicate,
    while_space_spaces.
  rewrite Hc at 1. rewrite chars_app, rev_app_distr. cbn [list_ascii_of_string rev app].
  rewrite while_space_stop by assumption. cbn.
  rewrite rev_involutive.
  change [a] with (list_ascii_of_string (String a "")).
  rewrite <- chars_app, <- Hc, string_of_list_ascii_of_string. reflexivity.
Qed.

(** The loop on a text of spaces only: it removes them all and then
    indexes the empty text. *)
Lemma strip_trailing_spaces (n : nat) :
  strip_trailing (PyStr.repeat " " n) = Raise IndexError.
Proof.
  unfold strip_trailing.
  rewrite chars_spaces, rev_replicate.
  rewrite <- (app_nil_r (replicate n space)), while_space_spaces.
  reflexivity.
Qed.

Lemma no_marker_in_spaces (sub : string) (n : nat) :
  startswith sub "" = false ->
  (forall s, startswith sub (String " " s) = false) ->
  contains sub (PyStr.repeat " " n) = false.
Proof.
  intros H0 H1. induction n as [|n IH]; [exact H0|].
  cbn [PyStr.repeat]. rewrite app_cons. cbn [contains].
  change ("" +:+ PyStr.repeat " " n) with (PyStr.repeat " " n).
  rewrite H1, IH. reflexivity.
Qed.

(** C3, on the code.  A line of one or more spaces is not reduced to the
    empty text: once the last space is removed the loop indexes the empty
    text and raises [IndexError], which ends the rendering of a text
    with such a line between its begin and end lines. *)
Theorem space_only_line_raises (n : nat) :
  strip_trailing (PyStr.repeat " " (S n)) = Raise IndexError
  /\ tikz_line (PyStr.repeat " " (S n)) = Raise IndexError
  /\ gt_tikz_loop "" [begin_tikz; PyStr.repeat " " (S n); end_tikz]
     = Raise IndexError.
Proof.
  assert (Hs : strip_trailing (PyStr.repeat " " (S n)) = Raise IndexError)
    by apply strip_trailing_spaces.
  assert (Hl : tikz_line (PyStr.repeat " " (S n)) = Raise IndexError).
  { unfold tikz_line.
    rewrite !no_marker_in_spaces by (reflexivity || (intros; reflexivity)).
    rewrite Hs. reflexivity. }
  split; [exact Hs|]. split; [exact Hl|].
  cbn [gt_tikz_loop].
  change (tikz_line begin_tikz) with (Ok (begin_tikz +:+ nl)).
  cbn [mbind result_bind rbind]. rewrite Hl. reflexivity.
Qed.

Lemma eqb_nonempty (s : string) : s ≠ "" -> String.eqb s "" = false.
Proof. intros H. destruct s; [congruence|reflexivity]. Qed.

Lemma app_nonempty (s t : string) : s ≠ "" -> s +:+ t ≠ "".
Proof. intros H. destruct s; [congruence|]. rewrite app_cons. discriminate. Qed.

(** What a line made of the content [c] and [n] trailing spaces adds to
    [gt]. *)
Lemma tikz_line_content (c : string) (n : nat) (a : ascii) :
  c ≠ "" -> a ≠ space -> last_char c = Ok a ->
  contains begin_tikz (c +:+ PyStr.repeat " " n) = false ->
  contains end_tikz (c +:+ PyStr.repeat " " n) = false ->
  tikz_line (c +:+ PyStr.repeat " " n)
  = if Ascii.eqb a semicolon then Ok (c +:+ nl)
    else Ok (drop_last c +:+ ";" +:+ nl).
Proof.
  intros Hne Ha Hl Hb He. unfold tikz_line.
  rewrite (eqb_nonempty _ (app_nonempty c _ Hne)), Hb, He.
  rewrite strip_trailing_content by congruence.
  cbn [negb andb mbind result_bind rbind].
  rewrite (eqb_nonempty c Hne), Hl.
  change (Ok a ≫= ?k) with (k a). cbv beta.
  destruct (Ascii.eqb a semicolon); reflexivity.
Qed.

(** Every line is made of spaces only, or is a non-empty content that
    does not end in a space, followed by its trailing spaces. *)
Lemma line_shape (s : string) :
  (exists n, s = PyStr.repeat " " n)
  \/ (exists c n, c ≠ "" /\ last_char c ≠ Ok space
                  /\ s = c +:+ PyStr.repeat " " n).
Proof.
  induction s as [|a s IH]; [left; exists O; reflexivity|].
  destruct IH as [[n ->]|(c & n & Hc & Hl & ->)].
  - destruct (Ascii.eqb_spec a space) as [->|Hne].
    + left. exists (S n). reflexivity.
    + right. exists (String a ""), n.
      split; [discriminate|]. split; [cbn; congruence|reflexivity].
  - right. exists (String a c), n. split; [discriminate|]. split.
    + destruct c; [congruence|exact Hl].
    + rewrite app_cons. reflexivity.
Qed.

(** C2, as the code has it.  For a line that is not a begin or end line
    and whose content, once the trailing spaces are removed, is not
    empty: the processed line ends with [;] and one newline; and when the
    content already ends with [;] the processed line is the content
    followed by one newline, with nothing added or removed, so that a
    content ending in [;;] keeps it. *)
Theorem tikz_line_terminated (c : string) (n : nat) :
  c ≠ "" ->
  last_char c ≠ Ok space ->
  contains begin_tikz (c +:+ PyStr.repeat " " n) = false ->
  contains end_tikz (c +:+ PyStr.repeat " " n) = false ->
  (exists body, tikz_line (c +:+ PyStr.repeat " " n) = Ok (body +:+ ";" +:+ nl))
  /\ (last_char c = Ok semicolon ->
      tikz_line (c +:+ PyStr.repeat " " n) = Ok (c +:+ nl)).
Proof.
  intros Hne Hlast Hb He.
  destruct (last_char_drop_last c Hne) as (a & Ha & Hc).
  assert (Hsp : a ≠ space) by congruence.
  rewrite (tikz_line_content c n a Hne Hsp Ha Hb He).
  split.
  - exists (drop_last c).
    destruct (Ascii.eqb_spec a semicolon) as [->|_]; [|reflexivity].
    rewrite Hc at 1. rewrite app_assoc_str. reflexivity.
  - intros Hsemi. assert (a = semicolon) as -> by congruence.
    reflexivity.
Qed.

Lemma tikz_line_terminated_witness :
  (exists body, tikz_line ("\draw (0,0) -- (1,1);" +:+ PyStr.repeat " " 2)
                = Ok (body +:+ ";" +:+ nl))
  /\ (last_char "\draw (0,0) -- (1,1);" = Ok semicolon ->
      tikz_line ("\draw (0,0) -- (1,1);" +:+ PyStr.repeat " " 2)
      = Ok ("\draw (0,0) -- (1,1);" +:+ nl)).
Proof.
  apply (tikz_line_terminated "\draw (0,0) -- (1,1);" 2).
  - discriminate.
  - discriminate.
  - vm_compute. reflexivity.
  - vm_compute. reflexivity.
Defined.

(** C2 fails as stated: the line [x;;] is not a begin or end line and is
    not empty, and its processed line is [x;;] and a newline, which ends
    with [;;]. *)
Lemma tikz_line_counterexample :
  contains begin_tikz "x;;" = false
  /\ contains end_tikz "x;;" = false
  /\ strip_trailing "x;;" = Ok "x;;"
  /\ tikz_line "x;;" = Ok ("x;" +:+ ";" +:+ nl).
Proof. vm_compute. auto. Qed.

(** The other branch of line 214, evaluated: on a content that does not
    end with [;], [out[:-1]] removes the last character of the content
    before [;] is added. *)
Lemma tikz_line_drops_last_char :
  tikz_line "\node (a) {A}" = Ok ("\node (a) {A" +:+ ";" +:+ nl)
  /\ tikz_line "a;b" = Ok ("a;" +:+ ";" +:+ nl).
Proof. vm_compute. auto. Qed.

(** ** Splitting a template at the marker *)

Lemma split_from_cons (sep : string) (k : nat) (s : string) :
  exists p ps, split_from sep k s = p :: ps.
Proof.
  revert k. induction s as [|c s IH]; intros k; [cbn; eauto|].
  destruct k as [|k]; cbn [split_from]; [|apply IH].
  destruct (startswith sep (String c s)); [eauto|].
  destruct (IH O) as (p & ps & ->). cbn. eauto.
Qed.

Lemma join_cons (sep p q : string) (ps : list string) :
  join sep (p :: q :: ps) = p +:+ sep +:+ join sep (q :: ps).
Proof. reflexivity. Qed.

Lemma join_cons_head (sep : string) (c : ascii) (p : string) (ps : list string) :
  join sep (cons_head c (p :: ps)) = String c (join sep (p :: ps)).
Proof. destruct ps; reflexivity. Qed.

Lemma startswith_slice (sep s : string) :
  startswith sep s = true -> s = sep +:+ slice_from (len sep) s.
Proof.
  revert s. induction sep as [|a sep IH]; intros s H; [reflexivity|].
  destruct s as [|b s]; [discriminate|].
  unfold startswith in *. cbn [String.prefix] in H.
  destruct (ascii_dec a b) as [->|]; [|discriminate].
  cbn [len String.length slice_from]. rewrite app_cons. f_equal.
  apply IH, H.
Qed.

Lemma startswith_app (sep s t : string) :
  startswith sep s = true -> startswith sep (s +:+ t) = true.
Proof.
  revert s. induction sep as [|a sep IH]; intros s H.
  - destruct (s +:+ t); reflexivity.
  - destruct s as [|b s]; [discriminate|].
    unfold startswith in *. rewrite app_cons. cbn [String.prefix] in *.
    destruct (ascii_dec a b); [apply IH, H|discriminate].
Qed.

(** Joining the pieces with the separator gives the text back. *)
Lemma join_split_from (sep : string) (s : string) (k : nat) :
  sep ≠ "" -> join sep (split_from sep k s) = slice_from k s.
Proof.
  intros Hsep. revert k. induction s as [|c s IH]; intros k.
  - destruct k; reflexivity.
  - destruct k as [|k]; cbn [split_from slice_from]; [|apply IH].
    destruct (startswith sep (String c s)) eqn:Hp.
    + destruct (split_from_cons sep (len sep - 1) s) as (p & ps & Hsp).
      pose proof (IH (len sep - 1)%nat) as Hj. rewrite Hsp in *.
      rewrite join_cons, Hj, app_empty_l.
      apply startswith_slice in Hp.
      destruct sep as [|a sep]; [congruence|].
      cbn [len String.length slice_from] in *.
      replace (S (String.length sep) - 1)%nat with (String.length sep) by lia.
      symmetry. exact Hp.
    + destruct (split_from_cons sep O s) as (p & ps & Hsp).
      pose proof (IH O) as Hj. rewrite Hsp in *.
      rewrite join_cons_head, Hj. reflexivity.
Qed.

Lemma join_split (sep s : string) : sep ≠ "" -> join sep (split sep s) = s.
Proof. intros H. unfold split. rewrite join_split_from by exact H. reflexivity. Qed.

Lemma join_head_prefix (sep p : string) (ps : list string) :
  exists t, join sep (p :: ps) = p +:+ t.
Proof.
  destruct ps as [|q ps].
  - exists "". cbn. symmetry. apply app_empty_r.
  - eexists. apply join_cons.
Qed.

(** The first piece holds no separator. *)
Lemma split_head_no_sep (sep s p : string) (ps : list string) :
  sep ≠ "" -> split sep s = p :: ps -> contains sep p = false.
Proof.
  intros Hsep. unfold split. revert p ps.
  induction s as [|c s IH]; intros p ps H.
  - injection H as <- <-. destruct sep; [congruence|reflexivity].
  - cbn [split_from] in H.
    destruct (startswith sep (String c s)) eqn:Hp.
    + injection H as <- _. destruct sep; [congruence|reflexivity].
    + destruct (split_from_cons sep O s) as (q & qs & Hsp).
      rewrite Hsp in H. injection H as <- <-.
      cbn [contains]. rewrite (IH q qs Hsp), orb_false_r.
      destruct (startswith sep (String c q)) eqn:Hq; [|reflexivity].
      destruct (join_head_prefix sep q qs) as (t & Ht).
      pose proof (join_split_from sep s O Hsep) as Hj.
      rewrite Hsp, Ht in Hj. cbn [slice_from] in Hj.
      apply (startswith_app _ _ t) in Hq.
      rewrite app_cons, Hj in Hq. congruence.
Qed.

(** C8, as the code has it.  For a template with the marker, the diagram
    page is the template text before the first marker, then the processed
    text as it is, then the template text after that marker (up to a
    further marker, if there is one); the marker itself is not written,
    whereas the structured-markup page writes it back between the same
    two pieces. *)
Theorem tikz_page_drops_marker (template gt l0 l1 : string) (rest : list string) :
  split marker template = l0 :: l1 :: rest ->
  template = l0 +:+ marker +:+ join marker (l1 :: rest)
  /\ contains marker l0 = false
  /\ new_web_tikz template gt = Ok (l0 +:+ gt +:+ l1)
  /\ new_web_mmd template gt = Ok (l0 +:+ marker +:+ gt +:+ l1).
Proof.
  intros Hs.
  assert (Hm : marker ≠ "") by discriminate.
  split.
  { rewrite <- (join_split marker template Hm) at 1. rewrite Hs.
    apply join_cons. }
  split; [exact (split_head_no_sep _ _ _ _ Hm Hs)|].
  unfold new_web_tikz, new_web_mmd. rewrite Hs. split; reflexivity.
Qed.

Lemma tikz_page_drops_marker_witness :
  "<script>const text =</script>" = "<script>" +:+ marker +:+ join marker ["</script>"]
  /\ contains marker "<script>" = false
  /\ new_web_tikz "<script>const text =</script>" "\draw;"
     = Ok ("<script>" +:+ "\draw;" +:+ "</script>")
  /\ new_web_mmd "<script>const text =</script>" "\draw;"
     = Ok ("<script>" +:+ marker +:+ "\draw;" +:+ "</script>").
Proof.
  apply (tikz_page_drops_marker "<script>const text =</script>" "\draw;"
           "<script>" "</script>" []).
  vm_compute. reflexivity.
Defined.

(** C8 fails as stated: on the template [A const text =B] the diagram
    page is [A ] followed by the text and [B], without the marker, while
    the structured-markup page keeps the marker. *)
Lemma tikz_page_counterexample :
  new_web_tikz "A const text =B" "x;" = Ok "A x;B"
  /\ new_web_tikz "A const text =B" "x;"
     ≠ Ok ("A const text =" +:+ "x;" +:+ "B")
  /\ new_web_mmd "A const text =B" "x;" = Ok "A const text =x;B".
Proof.
  split; [reflexivity|]. split; [|reflexivity].
  vm_compute. discriminate.
Qed.

(** ** The plain-text file and the renderers *)

(** Writing inside a directory changes no other file, whether the
    directory exists or not. *)
Lemma write_in_frame (dir path content : string) (fs : store) (p : string) :
  p ≠ path -> (write_in dir path content fs).1 !! p = fs !! p.
Proof.
  intros Hp. unfold write_in, write_file.
  destruct (fs !! dir); [|reflexivity].
  cbn [fst]. apply lookup_insert_ne. congruence.
Qed.

Section PlainTextFirst.

Variable punctuation_dict : ascii -> option string.
Variable get_prompt : string -> string.
Variable stop_str : string.
Variable generate : string -> string.
Variable verovio_svg : string -> result string.
Variable svg_to_html : string -> string -> store -> store * result unit.

(** The helper of the music branch writes no file but the one it is
    given. *)
Hypothesis svg_to_html_frame :
  forall (svg path : string) (fs : store) (p : string),
    p ≠ path -> (svg_to_html svg path fs).1 !! p = fs !! p.

Lemma render_kern_keeps (outputs : string) (fs : store) :
  (render_kern verovio_svg svg_to_html outputs fs).1 !! ocr_output
  = fs !! ocr_output.
Proof.
  unfold render_kern. destruct (verovio_svg outputs); [|reflexivity].
  apply svg_to_html_frame. discriminate.
Qed.

Lemma render_mmd_keeps (outputs : string) (fs : store) :
  (render_mmd outputs fs).1 !! ocr_output = fs !! ocr_output.
Proof.
  unfold render_mmd.
  destruct (read_file mmd_template fs ≫= _); [|reflexivity].
  apply write_in_frame. discriminate.
Qed.

Lemma render_tikz_keeps (outputs : string) (fs : store) :
  (render_tikz punctuation_dict outputs fs).1 !! ocr_output = fs !! ocr_output.
Proof.
  unfold render_tikz.
  destruct (gt_tikz punctuation_dict outputs ≫= _); [|reflexivity].
  apply write_in_frame. discriminate.
Qed.

Lemma render_branch_keeps (a : Args) (outputs : string) (fs : store) :
  (render_branch punctuation_dict verovio_svg svg_to_html a outputs fs).1
    !! ocr_output
  = fs !! ocr_output.
Proof.
  unfold render_branch.
  destruct (contains "**kern" outputs).
  - pose proof (render_kern_keeps outputs fs) as Hk.
    destruct (render_kern verovio_svg svg_to_html outputs fs) as [fs1 [u|e]];
      cbn [fst] in *; rewrite ?andb_false_r; exact Hk.
  - destruct (String.eqb (type a) "format" && negb false); [|reflexivity].
    destruct (negb (contains begin_tikz outputs));
      [apply render_mmd_keeps|apply render_tikz_keeps].
Qed.

(** C6. Once the prompt is built, the trimmed text is written in full to
    [ocr_output.txt], replacing what was there, and the render block runs
    on the files that already hold it; whatever the run then returns or
    raises, the file holds the whole text at the end. *)
Theorem plain_text_written_first (a : Args) (w h : Z) (fs : store) (qs : string) :
  qs_final a w h = Ok qs ->
  let outputs := outputs_text stop_str (generate (get_prompt qs)) in
  let run := eval_model punctuation_dict get_prompt stop_str generate
               verovio_svg svg_to_html a w h fs in
  run.1 !! ocr_output = Some outputs
  /\ (render a = true ->
      run = render_branch punctuation_dict verovio_svg svg_to_html a outputs
              (<[ocr_output := outputs]> fs))
  /\ (render a = false -> run = (<[ocr_output := outputs]> fs, Ok ())).
Proof.
  intros Hq outputs run. subst run. unfold eval_model. rewrite Hq.
  fold outputs. unfold save_and_render, write_file.
  destruct (render a).
  - split; [|split; [reflexivity|discriminate]].
    rewrite render_branch_keeps. apply lookup_insert_eq.
  - split; [|split; [discriminate|reflexivity]].
    cbn [fst]. apply lookup_insert_eq.
Qed.

End PlainTextFirst.

Lemma demo_svg_to_html_frame (svg path : string) (fs : store) (p : string) :
  p ≠ path -> (demo_svg_to_html svg path fs).1 !! p = fs !! p.
Proof. intros H. apply lookup_insert_ne. congruence. Qed.

(** A run whose diagram rendering raises: the text has a line of spaces. *)
Lemma demo_run_raises :
  demo_run.2 = Raise IndexError
  /\ outputs_text demo_stop (demo_generate "") = demo_text.
Proof. vm_compute. auto. Qed.

Lemma plain_text_written_first_witness :
  demo_run.1 !! ocr_output
  = Some (outputs_text demo_stop
            (demo_generate (demo_prompt (image_block +:+ "OCR with format: ")))).
Proof.
  apply (plain_text_written_first demo_dict demo_prompt demo_stop demo_generate
           demo_verovio demo_svg_to_html demo_svg_to_html_frame
           demo_args 640 480 ∅ (image_block +:+ "OCR with format: ")).
  reflexivity.
Defined.

(** ** Rounding under an integer bound *)

Lemma fexp_53 (e : Z) : fexp prec emax e = Z.max (e - 53) (-1074).
Proof. reflexivity. Qed.

Lemma digits2_pos_bounds (p : positive) :
  2 ^ (Zpos (digits2_pos p) - 1) <= Zpos p < 2 ^ Zpos (digits2_pos p).
Proof.
  induction p as [p IH|p IH|]; cbn [digits2_pos]; [| |cbn; lia].
  - rewrite Pos2Z.inj_succ.
    replace (Z.succ (Zpos (digits2_pos p)) - 1) with (Z.succ (Zpos (digits2_pos p) - 1)) by lia.
    rewrite !Z.pow_succ_r by lia. lia.
  - rewrite Pos2Z.inj_succ.
    replace (Z.succ (Zpos (digits2_pos p)) - 1) with (Z.succ (Zpos (digits2_pos p) - 1)) by lia.
    rewrite !Z.pow_succ_r by lia. lia.
Qed.

Lemma Zdigits2_le (m D : Z) : 0 <= m < 2 ^ D -> 0 <= D -> Zdigits2 m <= D.
Proof.
  intros [H0 H1] HD. destruct m as [|p|p]; [exact HD| |lia].
  cbn [Zdigits2]. pose proof (digits2_pos_bounds p) as [Hl _].
  destruct (Z_le_gt_dec (Zpos (digits2_pos p)) D) as [|Hgt]; [assumption|].
  assert (2 ^ D <= 2 ^ (Zpos (digits2_pos p) - 1))
    by (apply Z.pow_le_mono_r; lia).
  lia.
Qed.

Lemma shr_1_below (N : Z) (mrs : shr_record) :
  below (2 * N) mrs -> below N (shr_1 mrs).
Proof.
  destruct mrs as [m r s]. unfold below, rec_up. cbn [shr_m shr_r shr_s].
  destruct m as [|[p|p|]|p]; destruct r, s; cbn; lia.
Qed.

Lemma pow2_xO (p : positive) : 2 ^ Zpos p~0 = 2 ^ Zpos p * 2 ^ Zpos p.
Proof.
  replace (Zpos p~0) with (Zpos p + Zpos p) by lia.
  apply Z.pow_add_r; lia.
Qed.

Lemma pow2_xI (p : positive) : 2 ^ Zpos p~1 = 2 * (2 ^ Zpos p * 2 ^ Zpos p).
Proof.
  replace (Zpos p~1) with (Z.succ (Zpos p~0)) by lia.
  rewrite Z.pow_succ_r, pow2_xO by lia. reflexivity.
Qed.

Lemma iter_pos_shr_1_below (p : positive) (N : Z) (mrs : shr_record) :
  below (N * 2 ^ Zpos p) mrs -> below N (SpecFloat.iter_pos shr_1 p mrs).
Proof.
  revert N mrs. induction p as [p IH|p IH|]; intros N mrs H;
    cbn [SpecFloat.iter_pos].
  - apply IH, IH, shr_1_below.
    replace (2 * (N * 2 ^ Zpos p * 2 ^ Zpos p)) with (N * 2 ^ Zpos p~1);
      [exact H|rewrite pow2_xI; lia].
  - apply IH, IH.
    replace (N * 2 ^ Zpos p * 2 ^ Zpos p) with (N * 2 ^ Zpos p~0);
      [exact H|rewrite pow2_xO; lia].
  - apply shr_1_below. replace (2 * N) with (N * 2 ^ 1) by lia. exact H.
Qed.

Lemma below_of_loc (N m : Z) (l : location) :
  0 <= m -> m + loc_up l <= N -> below N (shr_record_of_loc m l).
Proof.
  intros H0 H1. destruct l as [|[]]; unfold below, rec_up; cbn in *; lia.
Qed.

Lemma round_nearest_even_below (N : Z) (mrs : shr_record) :
  below N mrs ->
  0 <= round_nearest_even (shr_m mrs) (loc_of_shr_record mrs) <= N.
Proof.
  destruct mrs as [m r s]. unfold below, rec_up. cbn [shr_m shr_r shr_s].
  destruct r, s; cbn; try destruct (Z.even m); lia.
Qed.

(** The shift of [shr_fexp] keeps a value under a bound [N0 * 2 ^ 0] that
    fits in the precision. *)
Lemma shr_fexp_below (N0 m e : Z) (l : location) :
  0 < N0 < 2 ^ 53 -> 0 <= m -> e <= 0 ->
  m + loc_up l <= N0 * 2 ^ (- e) ->
  (shr_fexp prec emax m e l).2 <= 0
  /\ below (N0 * 2 ^ (- (shr_fexp prec emax m e l).2))
       (shr_fexp prec emax m e l).1.
Proof.
  intros HN Hm He Hb.
  assert (Hp : 0 < 2 ^ (- e)) by (apply Z.pow_pos_nonneg; lia).
  assert (Hd : Zdigits2 m <= 53 - e).
  { apply Zdigits2_le; [|lia]. split; [exact Hm|].
    replace (53 - e) with (53 + - e) by lia. rewrite Z.pow_add_r by lia.
    assert (loc_up l >= 0) by (destruct l; cbn; lia). nia. }
  assert (Hf : fexp prec emax (Zdigits2 m + e) <= 0) by (rewrite fexp_53; lia).
  unfold shr_fexp.
  pose proof (below_of_loc _ m l Hm Hb) as Hrec.
  destruct (fexp prec emax (Zdigits2 m + e) - e) as [|p|p] eqn:En;
    cbn [shr fst snd]; [split; assumption| |split; assumption].
  split; [lia|].
  apply iter_pos_shr_1_below.
  replace (N0 * 2 ^ (- (e + Zpos p)) * 2 ^ Zpos p) with (N0 * 2 ^ (- e));
    [exact Hrec|].
  replace (- e) with (- (e + Zpos p) + Zpos p) at 1 by lia.
  rewrite Z.pow_add_r by lia. lia.
Qed.

(** Rounding to nearest even never goes above an integer bound that the
    exact value respects. *)
Lemma binary_round_aux_at_most (N0 m e : Z) (l : location) :
  0 < N0 < 2 ^ 53 -> 0 <= m -> e <= 0 ->
  m + loc_up l <= N0 * 2 ^ (- e) ->
  at_most N0 (binary_round_aux prec emax false m e l).
Proof.
  intros HN Hm He Hb. unfold binary_round_aux.
  pose proof (shr_fexp_below N0 m e l HN Hm He Hb) as [He1 Hb1].
  destruct (shr_fexp prec emax m e l) as [mrs1 e1]. cbn [fst snd] in *.
  pose proof (round_nearest_even_below _ mrs1 Hb1) as [Hr0 Hr1].
  set (m1 := round_nearest_even (shr_m mrs1) (loc_of_shr_record mrs1)) in *.
  assert (Hb2 : m1 + loc_up loc_Exact <= N0 * 2 ^ (- e1)) by (cbn; lia).
  pose proof (shr_fexp_below N0 m1 e1 loc_Exact HN Hr0 He1 Hb2) as [He2 [H0 H1]].
  destruct (shr_fexp prec emax m1 e1 loc_Exact) as [mrs2 e2].
  cbn [fst snd] in *.
  assert (rec_up mrs2 >= 0) by (unfold rec_up; destruct (_ || _); lia).
  destruct (shr_m mrs2) as [|q|q]; [exact I| |lia].
  destruct (Z.leb_spec e2 (emax - prec)) as [_|Hgt].
  - cbn. split; [exact He2|lia].
  - unfold emax, prec in Hgt. lia.
Qed.

Lemma loc_up_new_location (nb k : Z) :
  loc_up (new_location nb k) = if k =? 0 then 0 else 1.
Proof.
  unfold new_location, new_location_even, new_location_odd.
  destruct (Z.even nb), (k =? 0); reflexivity.
Qed.

(** The quotient digits of [x / d], for [0 < x <= d], stand for a value
    that is at most 1. *)
Lemma div_core_at_most (px pd : positive) :
  Zpos px <= Zpos pd ->
  let '(q, e, l) := SFdiv_core_binary prec emax (Zpos px) 0 (Zpos pd) 0 in
  0 <= q /\ e <= 0 /\ q + loc_up l <= 1 * 2 ^ (- e).
Proof.
  intros Hle. unfold SFdiv_core_binary.
  set (e' := Z.min (fexp prec emax
                      (Zdigits2 (Zpos px) + 0 - (Zdigits2 (Zpos pd) + 0)))
                   (0 - 0)).
  assert (He : e' <= 0) by (subst e'; apply Z.le_min_r).
  set (m' := match 0 - 0 - e' with
             | 0 => Zpos px
             | Zpos _ => Z.shiftl (Zpos px) (0 - 0 - e')
             | Zneg _ => 0
             end).
  assert (Hm : m' = Zpos px * 2 ^ (- e')).
  { subst m'. replace (0 - 0 - e') with (- e') by lia.
    destruct (- e') as [|s|s] eqn:Es; [lia| |lia].
    apply Z.shiftl_mul_pow2. lia. }
  assert (Hp : 0 < 2 ^ (- e')) by (apply Z.pow_pos_nonneg; lia).
  pose proof (Z_div_mod m' (Zpos pd) eq_refl) as Hdiv.
  destruct (Z.div_eucl m' (Zpos pd)) as [q r]. destruct Hdiv as [Heq Hr].
  rewrite loc_up_new_location.
  assert (0 <= q) by nia.
  split; [assumption|]. split; [assumption|].
  destruct (Z.eqb_spec r 0) as [->|Hne]; nia.
Qed.

Lemma truediv_at_most (x d : Z) :
  0 <= x <= d -> 0 < d ->
  exists q, int_truediv x d = Ok q /\ at_most 1 q.
Proof.
  intros [H0 H1] Hd. unfold int_truediv.
  destruct (Z.eqb_spec d 0) as [->|_]; [lia|].
  destruct d as [|pd|pd]; try lia.
  destruct x as [|px|px]; [exists (S754_zero false); split; [reflexivity|exact I]| |lia].
  cbn [exact_of_int SFdiv xorb].
  pose proof (div_core_at_most px pd H1) as Hc.
  destruct (SFdiv_core_binary prec emax (Zpos px) 0 (Zpos pd) 0) as [[q e] l].
  destruct Hc as (Hq & He & Hb).
  assert (HN : 0 < 1 < 2 ^ 53) by (split; [lia|reflexivity]).
  pose proof (binary_round_aux_at_most 1 q e l HN Hq He Hb) as Ha.
  destruct (binary_round_aux prec emax false q e l) as [s|s| |s m e0] eqn:Er;
    cbn in Ha; try contradiction; eexists; (split; [reflexivity|]).
  - exact I.
  - exact Ha.
Qed.

Lemma float_of_int_1000 :
  float_of_int 1000 = S754_finite false 8796093022208000 (-43).
Proof. vm_compute. reflexivity. Qed.

Lemma mul_at_most (q : spec_float) :
  at_most 1 q -> at_most 1000 (float_mul_int q 1000).
Proof.
  intros Hq. unfold float_mul_int. rewrite float_of_int_1000.
  destruct q as [s|s| |s m e]; cbn in Hq; try contradiction; [exact I|].
  destruct s; [contradiction|]. destruct Hq as [He Hm].
  cbn [SFmul xorb].
  apply binary_round_aux_at_most.
  - split; [lia|reflexivity].
  - lia.
  - lia.
  - cbn [loc_up]. rewrite Pos2Z.inj_mul.
    replace (- (e + -43)) with (- e + 43) by lia.
    rewrite Z.pow_add_r by lia.
    change (2 ^ 43) with 8796093022208.
    assert (0 < 2 ^ (- e)) by (apply Z.pow_pos_nonneg; lia).
    nia.
Qed.

Lemma int_of_float_at_most (N : Z) (x : spec_float) :
  0 <= N -> at_most N x ->
  exists v, int_of_float x = Ok v /\ 0 <= v <= N.
Proof.
  intros HN Hx.
  destruct x as [s|s| |s m e]; cbn in Hx; try contradiction.
  - exists 0. split; [reflexivity|lia].
  - destruct s; [contradiction|]. destruct Hx as [He Hm].
    unfold int_of_float. eexists. split; [reflexivity|].
    destruct e as [|p|p]; [|lia|].
    + change (2 ^ (- 0)) with 1 in Hm. change (2 ^ 0) with 1. lia.
    + change (- Zneg p) with (Zpos p) in Hm.
      assert (0 < 2 ^ Zpos p) by (apply Z.pow_pos_nonneg; lia).
      split; [apply Z.div_pos; lia|].
      apply Z.div_le_upper_bound; lia.
Qed.

(** A coordinate inside the image is scaled to the grid. *)
Lemma scale_in_range (x d : Z) :
  0 <= x <= d -> 0 < d ->
  exists v, scale x d = Ok v /\ 0 <= v <= 1000.
Proof.
  intros Hx Hd. unfold scale.
  destruct (truediv_at_most x d Hx Hd) as (q & -> & Hq).
  apply (int_of_float_at_most 1000); [lia|].
  apply mul_at_most, Hq.
Qed.

(** C5. For a box of 2 or 4 coordinates inside an image of positive
    width and height (the coordinates at even positions between 0 and the
    width, those at odd positions between 0 and the height), the
    normaliser returns a box of the same length whose coordinates are
    integers between 0 and 1000. *)
Theorem normalized_in_range (b : list Z) (w h : Z) :
  0 < w -> 0 < h ->
  length b = 2%nat \/ length b = 4%nat ->
  (forall i x, b !! i = Some x -> 0 <= x <= if Nat.even i then w else h) ->
  exists b', bbox_norm b w h = Ok b'
             /\ length b' = length b
             /\ forall v, v ∈ b' -> 0 <= v <= 1000.
Proof.
  intros Hw Hh Hl Hin.
  destruct (length_2_or_4 b Hl) as [(x0 & x1 & ->)|(x0 & x1 & x2 & x3 & ->)].
  - destruct (scale_in_range x0 w (Hin 0%nat x0 eq_refl) Hw) as (v0 & E0 & R0).
    destruct (scale_in_range x1 h (Hin 1%nat x1 eq_refl) Hh) as (v1 & E1 & R1).
    exists [v0; v1]. split; [|split; [reflexivity|]].
    + unfold bbox_norm. change (length [x0; x1] =? 2)%nat with true. cbv iota.
      step_scaled E0. step_scaled E1. reflexivity.
    + intros v Hv. rewrite !elem_of_cons, elem_of_nil in Hv.
      destruct Hv as [->|[->|[]]]; assumption.
  - destruct (scale_in_range x0 w (Hin 0%nat x0 eq_refl) Hw) as (v0 & E0 & R0).
    destruct (scale_in_range x1 h (Hin 1%nat x1 eq_refl) Hh) as (v1 & E1 & R1).
    destruct (scale_in_range x2 w (Hin 2%nat x2 eq_refl) Hw) as (v2 & E2 & R2).
    destruct (scale_in_range x3 h (Hin 3%nat x3 eq_refl) Hh) as (v3 & E3 & R3).
    exists [v0; v1; v2; v3]. split; [|split; [reflexivity|]].
    + unfold bbox_norm.
      change (length [x0; x1; x2; x3] =? 2)%nat with false. cbv iota.
      rewrite bind_ok.
      change (length [x0; x1; x2; x3] =? 4)%nat with true. cbv iota.
      step_scaled E0. step_scaled E1. step_scaled E2. step_scaled E3.
      reflexivity.
    + intros v Hv. rewrite !elem_of_cons, elem_of_nil in Hv.
      destruct Hv as [->|[->|[->|[->|[]]]]]; assumption.
Qed.

Lemma normalized_in_range_witness :
  exists b', bbox_norm [320; 240; 640; 480] 640 480 = Ok b'
             /\ length b' = length [320; 240; 640; 480]
             /\ forall v, v ∈ b' -> 0 <= v <= 1000.
Proof.
  apply (normalized_in_range [320; 240; 640; 480] 640 480);
    [lia|lia|right; reflexivity|].
  intros i x H.
  destruct i as [|[|[|[|i]]]]; cbn in H; try discriminate;
    injection H as <-; cbn; lia.
Defined.

(** The same box, evaluated. *)
Lemma normalized_example :
  bbox_norm [320; 240; 640; 480] 640 480 = Ok [500; 500; 1000; 1000]
  /\ bbox_norm [1; 479] 640 480 = Ok [1; 997].
Proof. vm_compute. auto. Qed.

(** * Further properties of the code *)

(** ** The JavaScript expression of the structured-markup page *)

Lemma len_app (s t : string) : len (s +:+ t) = (len s + len t)%nat.
Proof.
  induction s as [|c s IH]; [reflexivity|].
  rewrite app_cons. unfold len in *. cbn [String.length].
  rewrite IH. reflexivity.
Qed.

Lemma substring_prefix (s t : string) :
  String.substring 0 (len s) (s +:+ t) = s.
Proof.
  induction s as [|c s IH].
  - destruct t; reflexivity.
  - rewrite app_cons. unfold len in *. cbn [String.length String.substring].
    f_equal. exact IH.
Qed.

(** [(s + t)[:-len(t)]] is [s] when [t] is not empty. *)
Lemma slice_to_neg_app (s t : string) :
  t ≠ "" -> slice_to_neg (len t) (s +:+ t) = s.
Proof.
  intros Ht. unfold slice_to_neg.
  destruct (len t) as [|k] eqn:Ek; [destruct t; [congruence|discriminate]|].
  rewrite len_app, Ek.
  replace (len s + S k - S k)%nat with (len s) by lia.
  apply substring_prefix.
Qed.

Lemma gt_mmd_loop_app (gt : string) (l : list string) :
  gt_mmd_loop gt l = gt +:+ gt_mmd_loop "" l.
Proof.
  revert gt. induction l as [|out l IH]; intros gt; cbn [gt_mmd_loop].
  - symmetry. apply app_empty_r.
  - rewrite IH. rewrite (IH ("" +:+ _)).
    rewrite app_empty_l, app_assoc_str. reflexivity.
Qed.

Lemma gt_mmd_loop_join (out : string) (l : list string) :
  gt_mmd_loop "" (out :: l)
  = join ("+" +:+ nl) (map js_line (out :: l)) +:+ "+" +:+ nl.
Proof.
  revert out. induction l as [|out' l IH]; intros out.
  - cbn [gt_mmd_loop map join]. unfold js_line.
    rewrite app_empty_l, !app_assoc_str. reflexivity.
  - change (gt_mmd_loop "" (out :: out' :: l))
      with (gt_mmd_loop ("" +:+ dq +:+ replace "\" "\\" out +:+ "\n" +:+ dq
                         +:+ "+" +:+ nl) (out' :: l)).
    rewrite gt_mmd_loop_app, IH.
    change (map js_line (out :: out' :: l))
      with (js_line out :: map js_line (out' :: l)).
    change (map js_line (out' :: l)) with (js_line out' :: map js_line l).
    rewrite join_cons.
    generalize (join ("+" +:+ nl) (js_line out' :: map js_line l)).
    intros rest. unfold js_line.
    rewrite app_empty_l, !app_assoc_str. reflexivity.
Qed.

(** X1. The expression spliced into the structured-markup page is the
    JavaScript literals of the lines of the text, in order, joined by [+]
    and a newline: the final [gt[:-2]] removes exactly the [+] and the
    newline that follow the last literal, for every text. *)
Theorem gt_mmd_join (outputs : string) :
  gt_mmd outputs = join ("+" +:+ nl) (map js_line (split nl outputs)).
Proof.
  unfold gt_mmd, split.
  destruct (split_from_cons nl O outputs) as (out & l & ->).
  rewrite gt_mmd_loop_join.
  apply (slice_to_neg_app _ ("+" +:+ nl)). discriminate.
Qed.

(** ** What line 181 removes *)

Lemma startswith_char (c a : ascii) (s : string) :
  startswith (String c "") (String a s) = Ascii.eqb c a.
Proof.
  unfold startswith. cbn [String.prefix].
  destruct (ascii_dec c a) as [->|Hne].
  - rewrite Ascii.eqb_refl. destruct s; reflexivity.
  - symmetry. apply Ascii.eqb_neq. exact Hne.
Qed.

Lemma contains_char (c : ascii) (s : string) :
  contains (String c "") s = has_char c s.
Proof.
  induction s as [|a s IH]; [reflexivity|].
  cbn [contains has_char]. rewrite startswith_char, IH. reflexivity.
Qed.

Lemma has_char_app (c : ascii) (s t : string) :
  has_char c (s +:+ t) = has_char c s || has_char c t.
Proof.
  induction s as [|a s IH]; [reflexivity|].
  rewrite app_cons. cbn [has_char]. rewrite IH, orb_assoc. reflexivity.
Qed.

Lemma replace_char_cons (c a : ascii) (new s : string) :
  replace (String c "") new (String a s)
  = if Ascii.eqb c a then new +:+ replace (String c "") new s
    else String a (replace (String c "") new s).
Proof.
  unfold replace. cbn [replace_from]. rewrite startswith_char. reflexivity.
Qed.

(** Replacing a character by a text without it removes the character. *)
Lemma replace_char_gone (c : ascii) (new s : string) :
  has_char c new = false ->
  has_char c (replace (String c "") new s) = false.
Proof.
  intros Hn. induction s as [|a s IH]; [reflexivity|].
  rewrite replace_char_cons. destruct (Ascii.eqb c a) eqn:E.
  - rewrite has_char_app, Hn, IH. reflexivity.
  - cbn [has_char]. rewrite E, IH. reflexivity.
Qed.

(** Replacing another character does not bring an absent one in. *)
Lemma replace_char_absent (c d : ascii) (new s : string) :
  has_char c new = false -> has_char c s = false ->
  has_char c (replace (String d "") new s) = false.
Proof.
  intros Hn. induction s as [|a s IH]; [reflexivity|].
  cbn [has_char]. intros H. apply orb_false_iff in H as [Ha Hs].
  rewrite replace_char_cons. destruct (Ascii.eqb d a).
  - rewrite has_char_app, Hn, (IH Hs). reflexivity.
  - cbn [has_char]. rewrite Ha, (IH Hs). reflexivity.
Qed.

(** X2. After line 181 the text holds no double quote and no dollar sign,
    whatever it held before: nothing in it can close the quoted
    JavaScript literals that lines 185-186 build around its lines. *)
Theorem unquote_clean (outputs : string) :
  contains dq (unquote outputs) = false
  /\ contains "$" (unquote outputs) = false.
Proof.
  unfold unquote, dq. rewrite !contains_char. split.
  - apply replace_char_absent; [reflexivity|].
    apply (replace_char_gone (ascii_of_nat 34) "``"). reflexivity.
  - apply (replace_char_gone "$"%char ""). reflexivity.
Qed.

(** ** Templates with and without the marker *)

Lemma split_without_sep (sep s : string) :
  contains sep s = false -> split sep s = [s].
Proof.
  unfold split. induction s as [|c s IH]; intros H; [reflexivity|].
  cbn [contains] in H. apply orb_false_iff in H as [Hp Hc].
  cbn [split_from]. rewrite Hp, (IH Hc). reflexivity.
Qed.

Lemma split_with_sep (sep s : string) :
  sep ≠ "" -> contains sep s = true ->
  exists l0 l1 rest, split sep s = l0 :: l1 :: rest.
Proof.
  intros Hsep. unfold split. induction s as [|c s IH]; intros H.
  - destruct sep; [congruence|discriminate].
  - cbn [contains] in H. cbn [split_from].
    destruct (startswith sep (String c s)) eqn:Hp.
    + destruct (split_from_cons sep (len sep - 1) s) as (p & ps & ->). eauto.
    + destruct (IH H) as (l0 & l1 & rest & ->). cbn. eauto.
Qed.

(** X3. A template without the marker is not turned into a malformed
    page: [lines[1]] raises [IndexError] in both renderers, whatever the
    text to insert. *)
Theorem no_marker_raises (template gt : string) :
  contains marker template = false ->
  new_web_mmd template gt = Raise IndexError
  /\ new_web_tikz template gt = Raise IndexError.
Proof.
  intros H. unfold new_web_mmd, new_web_tikz.
  rewrite (split_without_sep _ _ H). split; reflexivity.
Qed.

Lemma no_marker_raises_witness :
  new_web_mmd "<html><body></body></html>" "x" = Raise IndexError
  /\ new_web_tikz "<html><body></body></html>" "x" = Raise IndexError.
Proof.
  apply (no_marker_raises "<html><body></body></html>" "x").
  vm_compute. reflexivity.
Defined.

(** X4. A template that holds the marker always yields a page, in both
    renderers: the pieces before and after the first marker exist, and
    the pages are built from them. *)
Theorem marker_gives_page (template gt : string) :
  contains marker template = true ->
  exists l0 l1 rest,
    split marker template = l0 :: l1 :: rest
    /\ new_web_mmd template gt = Ok (l0 +:+ marker +:+ gt +:+ l1)
    /\ new_web_tikz template gt = Ok (l0 +:+ gt +:+ l1).
Proof.
  intros H.
  destruct (split_with_sep marker template) as (l0 & l1 & rest & Hs);
    [discriminate|exact H|].
  exists l0, l1, rest. unfold new_web_mmd, new_web_tikz. rewrite Hs.
  split; [reflexivity|]. split; reflexivity.
Qed.

Lemma marker_gives_page_witness :
  exists l0 l1 rest,
    split marker "a const text = b; const text = c" = l0 :: l1 :: rest
    /\ new_web_mmd "a const text = b; const text = c" "G"
       = Ok (l0 +:+ marker +:+ "G" +:+ l1)
    /\ new_web_tikz "a const text = b; const text = c" "G"
       = Ok (l0 +:+ "G" +:+ l1).
Proof.
  apply (marker_gives_page "a const text = b; const text = c" "G").
  vm_compute. reflexivity.
Defined.

(** ** When the diagram loop raises *)

Lemma all_spaces_app (s t : string) :
  all_spaces (s +:+ t) = all_spaces s && all_spaces t.
Proof.
  induction s as [|a s IH]; [reflexivity|].
  rewrite app_cons. cbn [all_spaces]. rewrite IH, andb_assoc. reflexivity.
Qed.

Lemma all_spaces_repeat (n : nat) : all_spaces (PyStr.repeat " " n) = true.
Proof.
  induction n as [|n IH]; [reflexivity|].
  cbn [PyStr.repeat]. rewrite all_spaces_app, IH. reflexivity.
Qed.

Lemma all_spaces_content (c : string) :
  c ≠ "" -> last_char c ≠ Ok space -> all_spaces c = false.
Proof.
  intros Hne Hl. destruct (last_char_drop_last c Hne) as (a & Ha & Hc).
  rewrite Hc, all_spaces_app. cbn [all_spaces].
  destruct (Ascii.eqb_spec a space) as [->|_]; [congruence|].
  apply andb_false_r.
Qed.

Lemma space_only_line_raises_aux (n : nat) :
  tikz_line (PyStr.repeat " " (S n)) = Raise IndexError.
Proof.
  unfold tikz_line.
  rewrite !no_marker_in_spaces by (reflexivity || (intros; reflexivity)).
  rewrite strip_trailing_spaces. reflexivity.
Qed.

(** One line raises exactly when it is blank, and then with
    [IndexError]. *)
Lemma tikz_line_blank (out : string) :
  if blank out then tikz_line out = Raise IndexError
  else exists added, tikz_line out = Ok added.
Proof.
  destruct (line_shape out) as [[n ->]|(c & n & Hc & Hl & ->)].
  - destruct n as [|n].
    + cbn. eauto.
    + unfold blank. rewrite all_spaces_repeat.
      change (String.eqb (PyStr.repeat " " (S n)) "") with false.
      cbn [negb andb]. apply (space_only_line_raises_aux n).
  - unfold blank. rewrite all_spaces_app, (all_spaces_content c Hc Hl).
    rewrite andb_false_l, andb_false_r.
    destruct (last_char_drop_last c Hc) as (a & Ha & _).
    assert (Hsp : a ≠ space) by congruence.
    destruct (contains begin_tikz (c +:+ PyStr.repeat " " n)) eqn:Hb;
      [unfold tikz_line;
       rewrite (eqb_nonempty _ (app_nonempty c _ Hc)), Hb; cbn; eauto|].
    destruct (contains end_tikz (c +:+ PyStr.repeat " " n)) eqn:He;
      [unfold tikz_line;
       rewrite (eqb_nonempty _ (app_nonempty c _ Hc)), Hb, He; cbn; eauto|].
    rewrite (tikz_line_content c n a Hc Hsp Ha Hb He).
    destruct (Ascii.eqb a semicolon); eauto.
Qed.

Lemma gt_tikz_loop_blank (gt : string) (lines : list string) :
  if existsb blank lines then gt_tikz_loop gt lines = Raise IndexError
  else exists gt', gt_tikz_loop gt lines = Ok gt'.
Proof.
  revert gt. induction lines as [|out lines IH]; intros gt.
  - cbn. eauto.
  - cbn [existsb gt_tikz_loop].
    pose proof (tikz_line_blank out) as Hl.
    destruct (blank out).
    + rewrite Hl. reflexivity.
    + destruct Hl as (added & ->). rewrite bind_ok. cbn [orb]. apply IH.
Qed.

(** X5. The diagram loop raises exactly when some line of the translated
    text is blank (not empty, spaces only), and then with [IndexError];
    on every other text it returns the processed text.  Empty lines and
    the begin and end lines never raise. *)
Theorem gt_tikz_raises_iff_blank (punctuation_dict : ascii -> option string)
    (outputs : string) :
  if existsb blank (split nl (translate punctuation_dict outputs))
  then gt_tikz punctuation_dict outputs = Raise IndexError
  else exists gt, gt_tikz punctuation_dict outputs = Ok gt.
Proof. unfold gt_tikz. apply gt_tikz_loop_blank. Qed.

(** ** The files a run reads and writes *)

Section StoreEffects.

Variable punctuation_dict : ascii -> option string.
Variable get_prompt : string -> string.
Variable stop_str : string.
Variable generate : string -> string.
Variable verovio_svg : string -> result string.
Variable svg_to_html : string -> string -> store -> store * result unit.

Local Abbreviation run_model :=
  (eval_model punctuation_dict get_prompt stop_str generate verovio_svg
     svg_to_html).
Local Abbreviation text_of qs :=
  (outputs_text stop_str (generate (get_prompt qs))).

Lemma render_mmd_frame (outputs : string) (fs : store) (p : string) :
  p ≠ demo_html -> (render_mmd outputs fs).1 !! p = fs !! p.
Proof.
  intros Hp. unfold render_mmd.
  destruct (read_file mmd_template fs ≫= _); [|reflexivity].
  apply write_in_frame. exact Hp.
Qed.

Lemma render_tikz_frame (outputs : string) (fs : store) (p : string) :
  p ≠ demo_html ->
  (render_tikz punctuation_dict outputs fs).1 !! p = fs !! p.
Proof.
  intros Hp. unfold render_tikz.
  destruct (gt_tikz punctuation_dict outputs ≫= _); [|reflexivity].
  apply write_in_frame. exact Hp.
Qed.

Lemma save_and_render_plain (a : Args) (outputs : string) (fs : store) :
  String.eqb (type a) "format" = false ->
  contains "**kern" outputs = false ->
  save_and_render punctuation_dict verovio_svg svg_to_html a outputs fs
  = (<[ocr_output := outputs]> fs, Ok ()).
Proof.
  intros Ht Hk. unfold save_and_render, render_branch, write_file.
  rewrite Hk, Ht. destruct (render a); reflexivity.
Qed.

(** X7. A plain OCR run (a type other than [format]) whose text holds no
    [**kern] renders nothing, with or without the render flag: it succeeds
    and the only file it changes is [ocr_output.txt]. *)
Theorem plain_ocr_writes_text_only (a : Args) (w h : Z) (fs : store) (qs : string) :
  qs_final a w h = Ok qs ->
  String.eqb (type a) "format" = false ->
  contains "**kern" (text_of qs) = false ->
  run_model a w h fs = (<[ocr_output := text_of qs]> fs, Ok ()).
Proof.
  intros Hq Ht Hk. unfold eval_model. rewrite Hq.
  apply save_and_render_plain; assumption.
Qed.

(** X8. A box that cannot be normalised aborts the run before the model
    is asked and before any file is written, also when a colour is
    supplied (whose prefix would have replaced the box text). *)
Theorem failing_box_aborts (a : Args) (w h : Z) (fs : store) (b : list Z) (e : exn) :
  box a = Some b ->
  bbox_norm b w h = Raise e ->
  run_model a w h fs = (fs, Raise e).
Proof.
  intros Hb Hn. unfold eval_model, qs_final, qs_instruction, qs_box.
  rewrite Hb, Hn. reflexivity.
Qed.


(** X10. The same run without its template file: the text is written to
    [ocr_output.txt], the run raises [FileNotFoundError] and
    [./results/demo.html] is left as it was. *)
Theorem structured_markup_no_template (a : Args) (w h : Z) (fs : store)
    (qs : string) :
  qs_final a w h = Ok qs ->
  render a = true ->
  type a = "format" ->
  contains "**kern" (text_of qs) = false ->
  contains begin_tikz (text_of qs) = false ->
  fs !! mmd_template = None ->
  run_model a w h fs
  = (<[ocr_output := text_of qs]> fs, Raise FileNotFoundError).
Proof.
  intros Hq Hr Ht Hk Hb Hf. unfold eval_model. rewrite Hq.
  unfold save_and_render, render_branch, write_file.
  rewrite Hr, Hk, Ht, Hb.
  change (String.eqb "format" "format") with true. cbn [negb andb].
  unfold render_mmd, read_file.
  rewrite lookup_insert_ne by discriminate. rewrite Hf. reflexivity.
Qed.


(** X12. Music notation comes first: when the text holds [**kern] and the
    toolkit returns an SVG, the run is the call of [svg_to_html] on that
    SVG, with its [overflow] attribute made visible, for
    [./results/demo.html], on the files that already hold the text; the
    two HTML renderers do not run, whatever the type. *)
Theorem music_run (a : Args) (w h : Z) (fs : store) (qs svg : string) :
  qs_final a w h = Ok qs ->
  render a = true ->
  contains "**kern" (text_of qs) = true ->
  verovio_svg (text_of qs) = Ok svg ->
  run_model a w h fs
  = svg_to_html
      (replace ("overflow=" +:+ dq +:+ "inherit" +:+ dq)
               ("overflow=" +:+ dq +:+ "visible" +:+ dq) svg)
      demo_html (<[ocr_output := text_of qs]> fs).
Proof.
  intros Hq Hr Hk Hv. unfold eval_model. rewrite Hq.
  unfold save_and_render, render_branch, write_file.
  rewrite Hr, Hk. unfold render_kern. rewrite Hv.
  destruct (svg_to_html _ demo_html _) as [fs1 [[]|e]];
    rewrite ?andb_false_r; reflexivity.
Qed.

(** The helper of the music branch writes no file but the one it is
    given. *)
Hypothesis svg_to_html_frame :
  forall (svg path : string) (fs : store) (p : string),
    p ≠ path -> (svg_to_html svg path fs).1 !! p = fs !! p.

Lemma render_branch_frame (a : Args) (outputs : string) (fs : store) (p : string) :
  p ≠ demo_html ->
  (render_branch punctuation_dict verovio_svg svg_to_html a outputs fs).1 !! p
  = fs !! p.
Proof.
  intros Hp. unfold render_branch.
  destruct (contains "**kern" outputs).
  - assert (Hk : (render_kern verovio_svg svg_to_html outputs fs).1 !! p
                 = fs !! p).
    { unfold render_kern. destruct (verovio_svg outputs); [|reflexivity].
      apply svg_to_html_frame. exact Hp. }
    destruct (render_kern verovio_svg svg_to_html outputs fs) as [fs1 [u|e]];
      cbn [fst] in *; rewrite ?andb_false_r; exact Hk.
  - destruct (String.eqb (type a) "format" && negb false); [|reflexivity].
    destruct (negb (contains begin_tikz outputs));
      [apply render_mmd_frame|apply render_tikz_frame]; exact Hp.
Qed.

(** X6. A run changes no file other than [ocr_output.txt] and
    [./results/demo.html]: the templates and every other file are as
    before, whether the run returns or raises. *)
Theorem run_touches_two_files (a : Args) (w h : Z) (fs : store) (p : string) :
  p ≠ ocr_output ->
  p ≠ demo_html ->
  (run_model a w h fs).1 !! p = fs !! p.
Proof.
  intros Ho Hd. unfold eval_model.
  destruct (qs_final a w h) as [qs|e]; [|reflexivity].
  unfold save_and_render, write_file.
  destruct (render a).
  - rewrite (render_branch_frame _ _ _ p Hd).
    apply lookup_insert_ne. congruence.
  - cbn [fst]. apply lookup_insert_ne. congruence.
Qed.

End StoreEffects.

Lemma plain_ocr_writes_text_only_witness :
  run_on "hello" plain_args 640 480 ∅
  = (<[ocr_output :=
         outputs_text demo_stop (answer "hello" (demo_prompt plain_qs))]> ∅,
     Ok ()).
Proof.
  apply (plain_ocr_writes_text_only demo_dict demo_prompt demo_stop
           (answer "hello") svg_toolkit demo_svg_to_html
           plain_args 640 480 ∅ plain_qs);
    vm_compute; reflexivity.
Defined.

Lemma failing_box_aborts_witness :
  run_on "hello" zero_args 0 480 mmd_files
  = (mmd_files, Raise ZeroDivisionError).
Proof.
  apply (failing_box_aborts demo_dict demo_prompt demo_stop
           (answer "hello") svg_toolkit demo_svg_to_html
           zero_args 0 480 mmd_files [10; 20] ZeroDivisionError);
    reflexivity.
Defined.


Lemma structured_markup_no_template_witness :
  run_on formula_text demo_args 640 480 ∅
  = (<[ocr_output :=
         outputs_text demo_stop
           (answer formula_text (demo_prompt format_qs))]> ∅,
     Raise FileNotFoundError).
Proof.
  apply (structured_markup_no_template demo_dict demo_prompt demo_stop
           (answer formula_text) svg_toolkit demo_svg_to_html
           demo_args 640 480 ∅ format_qs);
    vm_compute; reflexivity.
Defined.


Lemma music_run_witness :
  run_on kern_text demo_args 640 480 ∅
  = demo_svg_to_html
      (replace ("overflow=" +:+ dq +:+ "inherit" +:+ dq)
               ("overflow=" +:+ dq +:+ "visible" +:+ dq) demo_svg)
      demo_html
      (<[ocr_output :=
           outputs_text demo_stop
             (answer kern_text (demo_prompt format_qs))]> ∅).
Proof.
  apply (music_run demo_dict demo_prompt demo_stop
           (answer kern_text) svg_toolkit demo_svg_to_html
           demo_args 640 480 ∅ format_qs demo_svg);
    vm_compute; reflexivity.
Defined.

Lemma run_touches_two_files_witness :
  (run_on formula_text demo_args 640 480 mmd_files).1 !! mmd_template
  = mmd_files !! mmd_template.
Proof.
  apply (run_touches_two_files demo_dict demo_prompt demo_stop
           (answer formula_text) svg_toolkit demo_svg_to_html
           demo_svg_to_html_frame demo_args 640 480 mmd_files mmd_template);
    discriminate.
Defined.

(** ** The text that is written (lines 134-137) *)

Lemma lstrip_head (s : string) (c : ascii) (s' : string) :
  lstrip s = String c s' -> isspace c = false.
Proof.
  induction s as [|a s IH]; [discriminate|].
  cbn [lstrip]. destruct (isspace a) eqn:Ea; [exact IH|].
  intros H. injection H as <- _. exact Ea.
Qed.

Lemma rstrip_cons (a : ascii) (s : string) :
  isspace a = false -> exists r, rstrip (String a s) = String a r.
Proof.
  intros Ha. cbn [rstrip]. rewrite Ha. destruct (rstrip s); eauto.
Qed.

Lemma rstrip_last (s : string) (c : ascii) :
  last_char (rstrip s) = Ok c -> isspace c = false.
Proof.
  induction s as [|a s IH]; [discriminate|].
  cbn [rstrip]. destruct (rstrip s) as [|b r] eqn:Er.
  - destruct (isspace a) eqn:Ea; [discriminate|].
    intros H. injection H as <-. exact Ea.
  - exact IH.
Qed.

Lemma rstrip_head (s : string) (c : ascii) (s' : string) :
  rstrip s = String c s' -> exists t, s = String c t.
Proof.
  destruct s as [|a s]; [discriminate|].
  cbn [rstrip]. destruct (rstrip s).
  - destruct (isspace a); [discriminate|]. intros H. injection H as <- _. eauto.
  - intros H. injection H as <- _. eauto.
Qed.

Lemma strip_trimmed (s : string) : trimmed (strip s).
Proof.
  unfold trimmed, strip. split.
  - intros c s' H. destruct (rstrip_head _ _ _ H) as (t & Ht).
    exact (lstrip_head _ _ _ Ht).
  - apply rstrip_last.
Qed.

Lemma lstrip_fixed (s : string) :
  (forall c s', s = String c s' -> isspace c = false) -> lstrip s = s.
Proof.
  intros H. destruct s as [|a s]; [reflexivity|].
  cbn [lstrip]. rewrite (H a s eq_refl). reflexivity.
Qed.

Lemma rstrip_fixed (s : string) :
  (forall c, last_char s = Ok c -> isspace c = false) -> rstrip s = s.
Proof.
  induction s as [|a s IH]; intros H; [reflexivity|].
  cbn [rstrip]. destruct s as [|b s'].
  - cbn. rewrite (H a eq_refl). reflexivity.
  - rewrite IH; [reflexivity|]. intros c Hc. apply H. exact Hc.
Qed.

Lemma strip_fixed (s : string) : trimmed s -> strip s = s.
Proof.
  intros [Hh Hl]. unfold strip. rewrite (lstrip_fixed s Hh).
  apply rstrip_fixed, Hl.
Qed.

(** X13. The text written to [ocr_output.txt] and handed to the
    renderers neither starts nor ends with a whitespace character, and
    stripping it again changes nothing, whatever the model answered and
    whatever the stop text. *)
Theorem outputs_text_trimmed (stop_str decoded : string) :
  trimmed (outputs_text stop_str decoded)
  /\ strip (outputs_text stop_str decoded) = outputs_text stop_str decoded.
Proof.
  assert (H : trimmed (outputs_text stop_str decoded))
    by (unfold outputs_text; apply strip_trimmed).
  split; [exact H|apply strip_fixed, H].
Qed.

Lemma substring_suffix (t u : string) :
  String.substring (len t) (len u) (t +:+ u) = u.
Proof.
  induction t as [|c t IH].
  - rewrite app_empty_l. rewrite <- (app_empty_r u) at 2.
    apply substring_prefix.
  - rewrite app_cons. exact IH.
Qed.

Lemma endswith_app (t u : string) : endswith u (t +:+ u) = true.
Proof.
  unfold endswith. rewrite len_app.
  replace (len t + len u - len u)%nat with (len t) by lia.
  rewrite substring_suffix, String.eqb_refl, andb_true_r.
  apply Nat.leb_le. lia.
Qed.

(** X14. When the stripped answer of the model ends with the stop text,
    that one occurrence is cut off and the rest is stripped again: for a
    stop text that is not empty and an answer that strips to [t + stop],
    the text written is [t] stripped. *)
Theorem stop_text_removed (stop_str decoded t : string) :
  stop_str ≠ "" ->
  strip decoded = t +:+ stop_str ->
  outputs_text stop_str decoded = strip t.
Proof.
  intros Hs Hd. unfold outputs_text.
  rewrite Hd, endswith_app, (slice_to_neg_app t stop_str Hs). reflexivity.
Qed.

Lemma stop_text_removed_witness :
  outputs_text "<|im_end|>" ("  x = 1 <|im_end|><|im_end|>" +:+ nl)
  = strip "x = 1 <|im_end|>".
Proof.
  apply (stop_text_removed "<|im_end|>"
           ("  x = 1 <|im_end|><|im_end|>" +:+ nl) "x = 1 <|im_end|>").
  - discriminate.
  - vm_compute. reflexivity.
Defined.

(** X15. When the stripped answer does not end with the stop text, the
    text written is the stripped answer. *)
Theorem stop_text_absent (stop_str decoded : string) :
  endswith stop_str (strip decoded) = false ->
  outputs_text stop_str decoded = strip decoded.
Proof.
  intros H. unfold outputs_text. rewrite H.
  apply strip_fixed, strip_trimmed.
Qed.

Lemma stop_text_absent_witness :
  outputs_text "<|im_end|>" "  x = 1 <|im_end|> y " = strip "  x = 1 <|im_end|> y ".
Proof.
  apply (stop_text_absent "<|im_end|>" "  x = 1 <|im_end|> y ").
  vm_compute. reflexivity.
Defined.

Lemma substring_none (n : nat) (s : string) : String.substring n 0 s = "".
Proof.
  revert n. induction s as [|c s IH]; intros [|n]; try reflexivity.
  cbn. apply IH.
Qed.

(** X16. An empty stop text erases the answer: every text ends with the
    empty text, and [outputs[:-0]] is [outputs[:0]], so the text written
    is empty whatever the model answered. *)
Theorem empty_stop_erases (decoded : string) : outputs_text "" decoded = "".
Proof.
  unfold outputs_text, endswith. cbn [len String.length].
  rewrite substring_none. reflexivity.
Qed.

(** ** The scaling of one coordinate *)

Lemma div_eucl_pair (a b : Z) : Z.div_eucl a b = (a / b, a mod b).
Proof.
  unfold Z.div, Z.modulo. destruct (Z.div_eucl a b). reflexivity.
Qed.

Lemma new_location_zero (nb : Z) : new_location nb 0 = loc_Exact.
Proof.
  unfold new_location, new_location_even, new_location_odd.
  destruct (Z.even nb); reflexivity.
Qed.

(** The quotient digits of [d / d] do not depend on [d]. *)
Lemma div_core_same (p : positive) :
  SFdiv_core_binary prec emax (Zpos p) 0 (Zpos p) 0
  = (2 ^ 53, -53, loc_Exact).
Proof.
  unfold SFdiv_core_binary.
  replace (Zdigits2 (Zpos p) + 0 - (Zdigits2 (Zpos p) + 0)) with 0 by lia.
  change (Z.min (fexp prec emax 0) (0 - 0)) with (-53).
  change (0 - 0 - -53) with 53.
  rewrite Z.shiftl_mul_pow2 by lia.
  rewrite div_eucl_pair, Z.mul_comm.
  rewrite Z.div_mul, Z.mod_mul by lia.
  rewrite new_location_zero. reflexivity.
Qed.

(** X17. The two ends of a side: for every image side [d > 0] the
    coordinate 0 is scaled to 0 and the coordinate [d] to exactly 1000;
    the binary64 arithmetic loses nothing there, however large [d]. *)
Theorem scale_ends (d : Z) :
  0 < d -> scale 0 d = Ok 0 /\ scale d d = Ok 1000.
Proof.
  intros Hd. destruct d as [|p|p]; try lia. split; [reflexivity|].
  unfold scale, int_truediv.
  change (Zpos p =? 0) with false. cbv iota.
  cbn [exact_of_int SFdiv xorb]. rewrite div_core_same.
  vm_compute. reflexivity.
Qed.

Lemma scale_ends_witness :
  scale 0 (10 ^ 30 + 7) = Ok 0 /\ scale (10 ^ 30 + 7) (10 ^ 30 + 7) = Ok 1000.
Proof. apply (scale_ends (10 ^ 30 + 7)). reflexivity. Defined.

Lemma div_eucl_double (a : Z) (q : positive) :
  Z.div_eucl (2 * a) (Zpos q~0)
  = ((Z.div_eucl a (Zpos q)).1, 2 * (Z.div_eucl a (Zpos q)).2).
Proof.
  rewrite !div_eucl_pair. cbn [fst snd].
  replace (Zpos q~0) with (2 * Zpos q) by lia.
  rewrite Z.div_mul_cancel_l, Z.mul_mod_distr_l by lia. reflexivity.
Qed.

Lemma new_location_double (q : positive) (r : Z) :
  new_location (Zpos q~0) (2 * r) = new_location (Zpos q) r.
Proof.
  unfold new_location. change (Z.even (Zpos q~0)) with true. cbv iota.
  destruct (Z.even (Zpos q)) eqn:Ev;
    unfold new_location_even, new_location_odd;
    (destruct (Z.eqb_spec r 0) as [->|Hr]; [reflexivity|]);
    (destruct (Z.eqb_spec (2 * r) 0) as [E|_]; [lia|]);
    replace (Zpos q~0) with (2 * Zpos q) by lia; f_equal.
  - destruct (Z.compare_spec (2 * (2 * r)) (2 * Zpos q));
      destruct (Z.compare_spec (2 * r) (Zpos q)); try reflexivity; lia.
  - destruct (Z.compare_spec (2 * r + 1) (Zpos q)) as [H|H|H];
      destruct (Z.compare_spec (2 * (2 * r)) (2 * Zpos q)) as [H'|H'|H'];
      try reflexivity; try lia.
    assert (E : Zpos q = 2 * r) by lia.
    rewrite E, Z.even_mul in Ev. discriminate Ev.
Qed.

(** The quotient digits of [2x / 2d] are those of [x / d]. *)
Lemma div_core_double (p q : positive) :
  SFdiv_core_binary prec emax (Zpos p~0) 0 (Zpos q~0) 0
  = SFdiv_core_binary prec emax (Zpos p) 0 (Zpos q) 0.
Proof.
  unfold SFdiv_core_binary. cbn [Zdigits2 digits2_pos].
  replace (Zpos (Pos.succ (digits2_pos p)) + 0
           - (Zpos (Pos.succ (digits2_pos q)) + 0))
    with (Zpos (digits2_pos p) + 0 - (Zpos (digits2_pos q) + 0)) by lia.
  set (e' := Z.min _ (0 - 0)).
  assert (Hm : match 0 - 0 - e' with
               | 0 => Zpos p~0
               | Zpos _ => Z.shiftl (Zpos p~0) (0 - 0 - e')
               | Zneg _ => 0
               end
               = 2 * match 0 - 0 - e' with
                     | 0 => Zpos p
                     | Zpos _ => Z.shiftl (Zpos p) (0 - 0 - e')
                     | Zneg _ => 0
                     end).
  { destruct (0 - 0 - e') as [|s|s]; [reflexivity| |reflexivity].
    rewrite !Z.shiftl_mul_pow2 by lia. lia. }
  rewrite Hm, div_eucl_double.
  destruct (Z.div_eucl _ (Zpos q)) as [Q R]. cbn [fst snd].
  rewrite new_location_double. reflexivity.
Qed.

Lemma truediv_double (x d : Z) :
  0 < d -> int_truediv (2 * x) (2 * d) = int_truediv x d.
Proof.
  intros Hd. destruct d as [|q|q]; try lia. unfold int_truediv.
  change (2 * Zpos q) with (Zpos q~0).
  change (Zpos q~0 =? 0) with false. change (Zpos q =? 0) with false.
  cbv iota.
  destruct x as [|p|p]; [reflexivity| |].
  - change (2 * Zpos p) with (Zpos p~0).
    cbn [exact_of_int SFdiv]. rewrite div_core_double. reflexivity.
  - change (2 * Zneg p) with (Zneg p~0).
    cbn [exact_of_int SFdiv]. rewrite div_core_double. reflexivity.
Qed.

(** X18. Doubling the image side and the coordinate together does not
    change the scaled coordinate, nor whether the scaling raises: the
    normalised box of an image is that of the same image at twice the
    resolution. *)
Theorem scale_double (x d : Z) :
  0 < d -> scale (2 * x) (2 * d) = scale x d.
Proof. intros Hd. unfold scale. rewrite (truediv_double x d Hd). reflexivity. Qed.

Lemma scale_double_witness : scale (2 * 147) (2 * 500) = scale 147 500.
Proof. apply (scale_double 147 500). reflexivity. Defined.

(** ** The errors of the normaliser *)

Lemma shr_1_nonneg (mrs : shr_record) :
  0 <= shr_m mrs -> 0 <= shr_m (shr_1 mrs).
Proof.
  destruct mrs as [m r s]. cbn [shr_m].
  destruct m as [|[p|p|]|p]; cbn; lia.
Qed.

Lemma iter_pos_shr_1_nonneg (p : positive) (mrs : shr_record) :
  0 <= shr_m mrs -> 0 <= shr_m (SpecFloat.iter_pos shr_1 p mrs).
Proof.
  revert mrs. induction p as [p IH|p IH|]; intros mrs H;
    cbn [SpecFloat.iter_pos].
  - apply IH, IH, shr_1_nonneg, H.
  - apply IH, IH, H.
  - apply shr_1_nonneg, H.
Qed.

Lemma shr_fexp_nonneg (m e : Z) (l : location) :
  0 <= m -> 0 <= shr_m (shr_fexp prec emax m e l).1.
Proof.
  intros Hm. unfold shr_fexp, shr.
  assert (H : 0 <= shr_m (shr_record_of_loc m l))
    by (destruct l as [|[]]; exact Hm).
  destruct (fexp prec emax (Zdigits2 m + e) - e); cbn [fst]; try exact H.
  apply iter_pos_shr_1_nonneg, H.
Qed.

Lemma round_nearest_even_nonneg (m : Z) (l : location) :
  0 <= m -> 0 <= round_nearest_even m l.
Proof.
  intros Hm. destruct l as [|[]]; cbn; try destruct (Z.even m); lia.
Qed.

(** Rounding a mantissa that is not negative never gives a NaN. *)
Lemma binary_round_aux_not_nan (s : bool) (m e : Z) (l : location) :
  0 <= m -> binary_round_aux prec emax s m e l ≠ S754_nan.
Proof.
  intros Hm. unfold binary_round_aux.
  pose proof (shr_fexp_nonneg m e l Hm) as H1.
  destruct (shr_fexp prec emax m e l) as [mrs1 e1]. cbn [fst] in H1.
  pose proof (round_nearest_even_nonneg _ (loc_of_shr_record mrs1) H1) as H2.
  pose proof (shr_fexp_nonneg _ e1 loc_Exact H2) as H3.
  destruct (shr_fexp prec emax _ e1 loc_Exact) as [mrs2 e2]. cbn [fst] in H3.
  destruct (shr_m mrs2) as [|q|q]; [discriminate| |lia].
  destruct (e2 <=? emax - prec); discriminate.
Qed.

Lemma div_core_nonneg (p q : positive) :
  0 <= (SFdiv_core_binary prec emax (Zpos p) 0 (Zpos q) 0).1.1.
Proof.
  unfold SFdiv_core_binary.
  set (m' := match _ with 0 => Zpos p | Zpos _ => _ | Zneg _ => 0 end).
  assert (Hm : 0 <= m').
  { subst m'. destruct (0 - 0 - _) as [|s|s]; [lia| |lia].
    apply Z.shiftl_nonneg. lia. }
  rewrite div_eucl_pair. cbn [fst]. apply Z.div_pos; lia.
Qed.

(** A true division raises nothing but its two errors, and returns a
    zero or a finite number. *)
Lemma int_truediv_cases (x d : Z) :
  match int_truediv x d with
  | Raise e => (e = ZeroDivisionError /\ d = 0) \/ e = OverflowError
  | Ok (S754_zero _) | Ok (S754_finite _ _ _) => True
  | Ok _ => False
  end.
Proof.
  unfold int_truediv. destruct (Z.eqb_spec d 0) as [->|Hd]; [left; auto|].
  assert (Hfin : forall sx sy p q,
    match
      match SFdiv prec emax (S754_finite sx p 0) (S754_finite sy q 0) with
      | S754_infinity _ => Raise OverflowError
      | r => Ok r
      end
    with
    | Raise e => (e = ZeroDivisionError /\ d = 0) \/ e = OverflowError
    | Ok (S754_zero _) | Ok (S754_finite _ _ _) => True
    | Ok _ => False
    end).
  { intros sx sy p q. cbn [SFdiv].
    pose proof (div_core_nonneg p q) as Hq.
    destruct (SFdiv_core_binary prec emax (Zpos p) 0 (Zpos q) 0) as [[mz ez] lz].
    cbn [fst] in Hq.
    pose proof (binary_round_aux_not_nan (xorb sx sy) mz ez lz Hq) as Hn.
    destruct (binary_round_aux prec emax (xorb sx sy) mz ez lz);
      try exact I; [right; reflexivity|congruence]. }
  destruct d as [|q|q]; [congruence| |];
    destruct x as [|p|p]; try exact I; apply Hfin.
Qed.

Lemma scale_raises (x d : Z) (e : exn) :
  scale x d = Raise e ->
  (e = ZeroDivisionError /\ d = 0) \/ e = OverflowError.
Proof.
  unfold scale. pose proof (int_truediv_cases x d) as Hc.
  destruct (int_truediv x d) as [q|e'].
  - rewrite bind_ok. unfold float_mul_int. rewrite float_of_int_1000.
    destruct q as [s|s| |s m ex]; try contradiction.
    + discriminate.
    + cbn [SFmul].
      pose proof (binary_round_aux_not_nan (xorb s false)
                    (Zpos (m * 8796093022208000)) (ex + -43) loc_Exact
                    ltac:(lia)) as Hn.
      destruct (binary_round_aux prec emax (xorb s false) _ _ loc_Exact);
        cbn [int_of_float]; try discriminate; [|congruence].
      intros H. injection H as <-. right. reflexivity.
  - intros H. injection H as <-. exact Hc.
Qed.

Lemma set_scaled_raises (i : nat) (d x : Z) (b : list Z) (e : exn) :
  b !! i = Some x ->
  set_scaled i d b = Raise e ->
  (e = ZeroDivisionError /\ d = 0) \/ e = OverflowError.
Proof.
  intros Hi. rewrite (set_scaled_at i d x b Hi).
  destruct (scale x d) as [v|e'] eqn:Es; [discriminate|].
  intros H. injection H as <-. exact (scale_raises x d e' Es).
Qed.

Lemma set_scaled_shape (i : nat) (d : Z) (b b' : list Z) :
  set_scaled i d b = Ok b' -> length b' = length b.
Proof.
  unfold set_scaled. destruct (b !! i) as [x|]; [|discriminate].
  destruct (scale x d) as [v|]; [|discriminate].
  intros H. injection H as <-. apply length_insert.
Qed.

(** X19. The normaliser never raises [IndexError] or [ValueError]: when
    it raises, the box has 2 or 4 coordinates and the error is
    [ZeroDivisionError] with a zero image side, or [OverflowError] (a
    ratio beyond the range of a float). *)
Theorem bbox_norm_raises (b : list Z) (w h : Z) (e : exn) :
  bbox_norm b w h = Raise e ->
  (length b = 2%nat \/ length b = 4%nat)
  /\ ((e = ZeroDivisionError /\ (w = 0 \/ h = 0)) \/ e = OverflowError).
Proof.
  intros H.
  assert (Hl : length b = 2%nat \/ length b = 4%nat).
  { destruct (Nat.eq_dec (length b) 2%nat) as [|H2]; [auto|].
    destruct (Nat.eq_dec (length b) 4%nat) as [|H4]; [auto|].
    rewrite (bbox_norm_other_length b w h H2 H4) in H. discriminate. }
  split; [exact Hl|].
  assert (Hstep : forall i d x (c : list Z) (k : list Z -> result (list Z)),
            (d = w \/ d = h) -> c !! i = Some x ->
            (forall c', length c' = length c -> k c' = Raise e ->
               (e = ZeroDivisionError /\ (w = 0 \/ h = 0)) \/ e = OverflowError) ->
            (set_scaled i d c ≫= k) = Raise e ->
            (e = ZeroDivisionError /\ (w = 0 \/ h = 0)) \/ e = OverflowError).
  { intros i d x c k Hd Hi Hk Hr.
    destruct (set_scaled i d c) as [c'|e'] eqn:Es.
    - rewrite bind_ok in Hr.
      exact (Hk c' (set_scaled_shape i d c c' Es) Hr).
    - injection Hr as <-.
      destruct (set_scaled_raises i d x c e' Hi Es) as [[-> ->]| ->];
        [left; split; [reflexivity|destruct Hd; auto]|right; reflexivity]. }
  assert (Hlast : forall i d x (c : list Z),
            (d = w \/ d = h) -> c !! i = Some x ->
            set_scaled i d c = Raise e ->
            (e = ZeroDivisionError /\ (w = 0 \/ h = 0)) \/ e = OverflowError).
  { intros i d x c Hd Hi Es.
    destruct (set_scaled_raises i d x c e Hi Es) as [[-> ->]| ->];
      [left; split; [reflexivity|destruct Hd; auto]|right; reflexivity]. }
  destruct (length_2_or_4 b Hl) as [(x0 & x1 & ->)|(x0 & x1 & x2 & x3 & ->)];
    unfold bbox_norm in H.
  - change (length [x0; x1] =? 2)%nat with true in H. cbv iota in H.
    destruct (set_scaled 0 w [x0; x1] ≫= _) as [c|e'] eqn:E1.
    + rewrite bind_ok in H.
      assert (Hc : length c = 2%nat).
      { destruct (set_scaled 0 w [x0; x1]) as [c0|] eqn:E0; [|discriminate].
        rewrite bind_ok in E1.
        rewrite (set_scaled_shape _ _ _ _ E1), (set_scaled_shape _ _ _ _ E0).
        reflexivity. }
      rewrite Hc in H. discriminate H.
    + injection H as <-.
      apply (Hstep 0%nat w x0 [x0; x1] _ (or_introl eq_refl) eq_refl) in E1;
        [exact E1|].
      intros c' Hc' Hr.
      destruct c' as [|y0 [|y1 [|? ?]]]; try discriminate Hc'.
      exact (Hlast 1%nat h y1 [y0; y1] (or_intror eq_refl) eq_refl Hr).
  - change (length [x0; x1; x2; x3] =? 2)%nat with false in H. cbv iota in H.
    rewrite bind_ok in H.
    change (length [x0; x1; x2; x3] =? 4)%nat with true in H. cbv iota in H.
    apply (Hstep 0%nat w x0 [x0; x1; x2; x3] _ (or_introl eq_refl) eq_refl) in H;
      [exact H|].
    intros c1 Hc1 Hr1.
    destruct c1 as [|y0 [|y1 [|y2 [|y3 [|? ?]]]]]; try discriminate Hc1.
    apply (Hstep 1%nat h y1 [y0; y1; y2; y3] _ (or_intror eq_refl) eq_refl) in Hr1;
      [exact Hr1|].
    intros c2 Hc2 Hr2.
    destruct c2 as [|z0 [|z1 [|z2 [|z3 [|? ?]]]]]; try discriminate Hc2.
    apply (Hstep 2%nat w z2 [z0; z1; z2; z3] _ (or_introl eq_refl) eq_refl) in Hr2;
      [exact Hr2|].
    intros c3 Hc3 Hr3.
    destruct c3 as [|u0 [|u1 [|u2 [|u3 [|? ?]]]]]; try discriminate Hc3.
    exact (Hlast 3%nat h u3 [u0; u1; u2; u3] (or_intror eq_refl) eq_refl Hr3).
Qed.

Lemma bbox_norm_raises_witness :
  (length [10 ^ 400; 5] = 2%nat \/ length [10 ^ 400; 5] = 4%nat)
  /\ ((OverflowError = ZeroDivisionError /\ (1 = 0 \/ 10 = 0))
      \/ OverflowError = OverflowError).
Proof.
  apply (bbox_norm_raises [10 ^ 400; 5] 1 10 OverflowError).
  vm_compute. reflexivity.
Defined.

(** ** The shape of the prompt *)

(** X20. Every prompt that is built is the image block, then at most one
    prefix, then the base instruction of the type: the prefix is the
    colour prefix when a colour is supplied; without a colour it is the
    text of the normalised box and a space when a box is supplied, and
    nothing otherwise. *)
Theorem prompt_shape (a : Args) (w h : Z) (qs : string) :
  qs_final a w h = Ok qs ->
  exists pre,
    qs = image_block +:+ pre +:+ qs_base a
    /\ ((color a ≠ "" /\ pre = "[" +:+ color a +:+ "] ")
        \/ (color a = "" /\ box a = None /\ pre = "")
        \/ (color a = "" /\
            exists b b', box a = Some b /\ bbox_norm b w h = Ok b'
                         /\ pre = str_list b' +:+ " ")).
Proof.
  unfold qs_final, qs_instruction.
  destruct (qs_box a w h) as [q|e] eqn:Eb; [|discriminate].
  rewrite !bind_ok. intros H. injection H as <-.
  destruct (String.eqb_spec (color a) "") as [Hc|Hc].
  - rewrite (qs_color_absent a q Hc). unfold qs_box in Eb.
    destruct (box a) as [b|] eqn:Ebox.
    + destruct (bbox_norm b w h) as [b'|] eqn:En; [|discriminate].
      rewrite bind_ok, str_of_list_cases in Eb.
      destruct (forallb short_int b'); [|discriminate].
      rewrite bind_ok in Eb. injection Eb as <-.
      exists (str_list b' +:+ " "). split.
      * rewrite !app_assoc_str. reflexivity.
      * right. right. split; [exact Hc|]. exists b, b'. auto.
    + injection Eb as <-. exists "". split; [reflexivity|].
      right. left. auto.
  - rewrite (qs_color_supplied a q Hc).
    exists ("[" +:+ color a +:+ "] "). split.
    + rewrite !app_assoc_str. reflexivity.
    + left. auto.
Qed.

Lemma prompt_shape_witness :
  exists pre,
    image_block +:+ "[red] OCR with format: "
    = image_block +:+ pre +:+ qs_base both_args
    /\ ((color both_args ≠ "" /\ pre = "[" +:+ color both_args +:+ "] ")
        \/ (color both_args = "" /\ box both_args = None /\ pre = "")
        \/ (color both_args = "" /\
            exists b b', box both_args = Some b
                         /\ bbox_norm b 1000 1000 = Ok b'
                         /\ pre = str_list b' +:+ " ")).
Proof.
  apply (prompt_shape both_args 1000 1000
           (image_block +:+ "[red] OCR with format: ")).
  vm_compute. reflexivity.
Defined.

(** ** Where the image comes from *)

Lemma startswith_shorter (p q s : string) :
  startswith (p +:+ q) s = true -> startswith p s = true.
Proof.
  revert s. induction p as [|a p IH]; intros s H.
  - destruct s; reflexivity.
  - destruct s as [|b s]; [discriminate|].
    unfold startswith in *. rewrite app_cons in H. cbn [String.prefix] in *.
    destruct (ascii_dec a b); [apply IH, H|discriminate].
Qed.

Section LoadImageFacts.

Variable Image : Type.
Variable requests_get : string -> result string.
Variable open_bytes : string -> result Image.
Variable open_file : string -> result Image.

(** X21. The second test of line 36 never decides: an image name is
    fetched over the network exactly when it starts with [http], and is
    opened as a local file otherwise, so a local file whose name starts
    with [http] cannot be loaded from the disk. *)
Theorem load_image_by_prefix (image_file : string) :
  load_image Image requests_get open_bytes open_file image_file
  = if startswith "http" image_file
    then content ← requests_get image_file; open_bytes content
    else open_file image_file.
Proof.
  unfold load_image.
  destruct (startswith "http" image_file) eqn:Eh; [reflexivity|].
  destruct (startswith "https" image_file) eqn:Es; [|reflexivity].
  apply (startswith_shorter "http" "s") in Es. congruence.
Qed.

End LoadImageFacts.

(** ** What the delimiter repair leaves alone *)

Lemma replace_absent (old new s : string) :
  contains old s = false -> replace old new s = s.
Proof.
  unfold replace. induction s as [|c s IH]; intros H; [reflexivity|].
  cbn [contains] in H. apply orb_false_iff in H as [Hp Hc].
  cbn [replace_from]. rewrite Hp, (IH Hc). reflexivity.
Qed.

(** X22. The repair only knows ten delimiter forms: an unbalanced text
    that holds none of them (for instance one whose only delimiter is
    [\left\{]) comes out of the repair unchanged, still unbalanced. *)
Theorem repair_leaves_other_forms (text : string) :
  existsb (fun form => contains form text) repaired_forms = false ->
  balance_repair text = text.
Proof.
  intros H. cbn [existsb repaired_forms] in H.
  repeat (apply orb_false_iff in H as [? H]).
  unfold balance_repair.
  destruct (negb (count "\right" text =? count "\left" text)%nat);
    [|reflexivity].
  repeat match goal with
         | Hf : contains ?form text = false |- _ =>
             rewrite (replace_absent form _ text Hf); clear Hf
         end.
  reflexivity.
Qed.

Lemma repair_leaves_other_forms_witness :
  balance_repair "\left\{ x + y" = "\left\{ x + y".
Proof.
  apply (repair_leaves_other_forms "\left\{ x + y").
  vm_compute. reflexivity.
Defined.

(** ** The normaliser, coordinate by coordinate *)

Ltac step_at i d x b :=
  let H := fresh in
  pose proof (set_scaled_at i d x b eq_refl) as H; rewrite H; clear H.

Lemma bbox_norm_2 (x0 x1 w h : Z) :
  bbox_norm [x0; x1] w h
  = (v0 ← scale x0 w; v1 ← scale x1 h; Ok [v0; v1]).
Proof.
  unfold bbox_norm. change (length [x0; x1] =? 2)%nat with true. cbv iota.
  step_at 0%nat w x0 [x0; x1].
  destruct (scale x0 w) as [v0|e0]; [|reflexivity].
  rewrite !bind_ok.
  step_at 1%nat h x1 (<[0%nat := v0]> [x0; x1]).
  destruct (scale x1 h) as [v1|e1]; reflexivity.
Qed.

Lemma bbox_norm_4 (x0 x1 x2 x3 w h : Z) :
  bbox_norm [x0; x1; x2; x3] w h
  = (v0 ← scale x0 w; v1 ← scale x1 h; v2 ← scale x2 w; v3 ← scale x3 h;
     Ok [v0; v1; v2; v3]).
Proof.
  unfold bbox_norm.
  change (length [x0; x1; x2; x3] =? 2)%nat with false. cbv iota.
  rewrite bind_ok.
  change (length [x0; x1; x2; x3] =? 4)%nat with true. cbv iota.
  step_at 0%nat w x0 [x0; x1; x2; x3].
  destruct (scale x0 w) as [v0|e0]; [|reflexivity]. rewrite !bind_ok.
  step_at 1%nat h x1 (<[0%nat := v0]> [x0; x1; x2; x3]).
  destruct (scale x1 h) as [v1|e1]; [|reflexivity]. rewrite !bind_ok.
  step_at 2%nat w x2 (<[1%nat := v1]> (<[0%nat := v0]> [x0; x1; x2; x3])).
  destruct (scale x2 w) as [v2|e2]; [|reflexivity]. rewrite !bind_ok.
  step_at 3%nat h x3
    (<[2%nat := v2]> (<[1%nat := v1]> (<[0%nat := v0]> [x0; x1; x2; x3]))).
  destruct (scale x3 h) as [v3|e3]; reflexivity.
Qed.

(** X23. The normaliser keeps the length of the box and works coordinate
    by coordinate: when it returns, a box of 2 or 4 coordinates has each
    coordinate at an even position scaled by the width and each at an odd
    position scaled by the height, every result depending on its own
    input only; a box of another length is returned as it is. *)
Theorem bbox_norm_pointwise (b b' : list Z) (w h : Z) :
  bbox_norm b w h = Ok b' ->
  length b' = length b
  /\ (length b = 2%nat \/ length b = 4%nat ->
      forall i x, b !! i = Some x ->
        exists v, scale x (if Nat.even i then w else h) = Ok v
                  /\ b' !! i = Some v)
  /\ (length b ≠ 2%nat -> length b ≠ 4%nat -> b' = b).
Proof.
  intros H.
  destruct (Nat.eq_dec (length b) 2%nat) as [H2|H2];
    [|destruct (Nat.eq_dec (length b) 4%nat) as [H4|H4]].
  - destruct (length_2_or_4 b (or_introl H2))
      as [(x0 & x1 & ->)|(x0 & x1 & x2 & x3 & ->)]; [|discriminate H2].
    rewrite bbox_norm_2 in H.
    destruct (scale x0 w) as [v0|] eqn:E0; [|discriminate].
    destruct (scale x1 h) as [v1|] eqn:E1; [|discriminate].
    rewrite !bind_ok in H. injection H as <-.
    split; [reflexivity|]. split; [|intros Hn; contradiction].
    intros _ i x Hi.
    destruct i as [|[|i]]; cbn in Hi; try discriminate;
      injection Hi as <-; eauto.
  - destruct (length_2_or_4 b (or_intror H4))
      as [(x0 & x1 & ->)|(x0 & x1 & x2 & x3 & ->)]; [discriminate H4|].
    rewrite bbox_norm_4 in H.
    destruct (scale x0 w) as [v0|] eqn:E0; [|discriminate].
    destruct (scale x1 h) as [v1|] eqn:E1; [|discriminate].
    destruct (scale x2 w) as [v2|] eqn:E2; [|discriminate].
    destruct (scale x3 h) as [v3|] eqn:E3; [|discriminate].
    rewrite !bind_ok in H. injection H as <-.
    split; [reflexivity|]. split; [|intros _ Hn; contradiction].
    intros _ i x Hi.
    destruct i as [|[|[|[|i]]]]; cbn in Hi; try discriminate;
      injection Hi as <-; eauto.
  - rewrite (bbox_norm_other_length b w h H2 H4) in H. injection H as <-.
    split; [reflexivity|]. split; [intros [?|?]; contradiction|auto].
Qed.

Lemma bbox_norm_pointwise_witness :
  length [500; 500; 1000; 1000] = length [320; 240; 640; 480]
  /\ (length [320; 240; 640; 480] = 2%nat
      \/ length [320; 240; 640; 480] = 4%nat ->
      forall i x, [320; 240; 640; 480] !! i = Some x ->
        exists v, scale x (if Nat.even i then 640 else 480) = Ok v
                  /\ [500; 500; 1000; 1000] !! i = Some v)
  /\ (length [320; 240; 640; 480] ≠ 2%nat ->
      length [320; 240; 640; 480] ≠ 4%nat ->
      [500; 500; 1000; 1000] = [320; 240; 640; 480]).
Proof.
  apply (bbox_norm_pointwise [320; 240; 640; 480] [500; 500; 1000; 1000]
           640 480).
  vm_compute. reflexivity.
Defined.

(** ** Without the results directory *)

Section ResultsDirectory.

Variable punctuation_dict : ascii -> option string.
Variable get_prompt : string -> string.
Variable stop_str : string.
Variable generate : string -> string.
Variable verovio_svg : string -> result string.
Variable svg_to_html : string -> string -> store -> store * result unit.

(** X24. The structured-markup run of X9 in a place without the
    [./results/] directory: the text is written to [ocr_output.txt], the
    template is read, and opening [./results/demo.html] raises
    [FileNotFoundError]; no page is written. *)
Theorem structured_markup_no_results_dir (a : Args) (w h : Z) (fs : store)
    (qs template l0 l1 : string) (rest : list string) :
  qs_final a w h = Ok qs ->
  render a = true ->
  type a = "format" ->
  contains "**kern" (outputs_text stop_str (generate (get_prompt qs))) = false ->
  contains begin_tikz (outputs_text stop_str (generate (get_prompt qs))) = false ->
  fs !! mmd_template = Some template ->
  split marker template = l0 :: l1 :: rest ->
  fs !! results_dir = None ->
  eval_model punctuation_dict get_prompt stop_str generate verovio_svg
    svg_to_html a w h fs
  = (<[ocr_output := outputs_text stop_str (generate (get_prompt qs))]> fs,
     Raise FileNotFoundError).
Proof.
  intros Hq Hr Ht Hk Hb Hf Hs Hd. unfold eval_model. rewrite Hq.
  unfold save_and_render, render_branch, write_file.
  rewrite Hr, Hk, Ht, Hb.
  change (String.eqb "format" "format") with true. cbn [negb andb].
  unfold render_mmd, read_file.
  rewrite lookup_insert_ne by discriminate. rewrite Hf, bind_ok.
  unfold new_web_mmd. rewrite Hs.
  change (piece (l0 :: l1 :: rest) 0 ≫= ?k) with (k l0). cbv beta.
  change (piece (l0 :: l1 :: rest) 1 ≫= ?k) with (k l1). cbv beta.
  unfold write_in.
  rewrite lookup_insert_ne by discriminate. rewrite Hd. reflexivity.
Qed.

(** X25. Without the [./results/] directory neither HTML renderer ever
    writes a page: each of them raises and leaves the files as they
    were, whatever the text and the templates. *)
Theorem no_results_dir_no_page (outputs : string) (fs : store) :
  fs !! results_dir = None ->
  (exists e, render_mmd outputs fs = (fs, Raise e))
  /\ (exists e, render_tikz punctuation_dict outputs fs = (fs, Raise e)).
Proof.
  intros Hd. unfold render_mmd, render_tikz, write_in. rewrite Hd. split.
  - destruct (read_file mmd_template fs ≫= _); eauto.
  - destruct (gt_tikz punctuation_dict outputs ≫= _); eauto.
Qed.

End ResultsDirectory.

Lemma structured_markup_no_results_dir_witness :
  run_on formula_text demo_args 640 480 mmd_files
  = (<[ocr_output :=
         outputs_text demo_stop
           (answer formula_text (demo_prompt format_qs))]> mmd_files,
     Raise FileNotFoundError).
Proof.
  apply (structured_markup_no_results_dir demo_dict demo_prompt demo_stop
           (answer formula_text) svg_toolkit demo_svg_to_html
           demo_args 640 480 mmd_files format_qs
           "<script>const text =</script>" "<script>" "</script>" []);
    vm_compute; reflexivity.
Defined.

Lemma no_results_dir_no_page_witness :
  (exists e, render_mmd formula_text mmd_files = (mmd_files, Raise e))
  /\ (exists e, render_tikz demo_dict formula_text mmd_files
                = (mmd_files, Raise e)).
Proof.
  apply (no_results_dir_no_page demo_dict formula_text mmd_files).
  vm_compute. reflexivity.
Defined.
